(** * The loan ledger of [server.js]

    A shallow embedding of the balance computations performed by the
    Express handlers [app.post("/api/loans")] and [app.put("/api/loans")]:
    loan creation, payment recording, penalty recording and loan-term edits.

    - JavaScript numbers are IEEE 754 binary64 values: they are modelled by
      Rocq's primitive [float], so [NaN], the infinities, signed zeros and
      rounding are those of the running program.
    - The [borrowers] collection is a finite map from [_id] to documents;
      a handler is a function from the collection and the request to a
      response and the new collection.
    - The runtime's [Date] object is an interface ([DateApi]); a small
      calendar instance is given to run the handlers on examples.
    - A document field that may be absent ([undefined] or [null]) is an
      [option]; [x || d] and [x ?? d] are [orNum]/[orOpt] and [nullish]. *)

From Stdlib Require Import Floats ZArith Bool List Lia.
From stdpp Require Import base option list gmap strings.

Local Open Scope string_scope.
Local Open Scope float_scope.

(** ** JavaScript primitives used by the handlers *)

Module JS.

(** [ToBoolean] on a number: [NaN], [+0] and [-0] are falsy. *)
Definition truthy (x : float) : bool := negb (is_nan x || is_zero x).

(** [x || d] where [x] is a number. *)
Definition orNum (x d : float) : float := if truthy x then x else d.

(** [ToBoolean] on a field that may be absent. *)
Definition truthyOpt (o : option float) : bool :=
  match o with Some x => truthy x | None => false end.

(** [o || d] where [o] is a number or absent. *)
Definition orOpt (o : option float) (d : float) : float :=
  match o with Some x => orNum x d | None => d end.

(** [o ?? d]: only [undefined] and [null] fall through. *)
Definition nullish {A : Type} (o : option A) (d : A) : A :=
  match o with Some x => x | None => d end.

(** [o !== undefined] *)
Definition defined {A : Type} (o : option A) : bool :=
  match o with Some _ => true | None => false end.

(** [ToBoolean] on a string: the empty string is falsy. *)
Definition truthyStr (s : string) : bool := negb (String.eqb s "").

Definition truthyStrOpt (o : option string) : bool :=
  match o with Some s => truthyStr s | None => false end.

(** [o || d] where [o] is a string or absent. *)
Definition orStr (o : option string) (d : string) : string :=
  match o with Some s => if truthyStr s then s else d | None => d end.

(** [Math.max(x, y)]: [NaN] if either is [NaN]; [+0] is larger than [-0]. *)
Definition Math_max (x y : float) : float :=
  if is_nan x || is_nan y then nan
  else if x <? y then y
  else if y <? x then x
  else if get_sign x then y else x.

(** The integer [z] as a number (exact below [2^53]). *)
Definition floatOfZ (z : Z) (szero : bool) : float :=
  SF2Prim (binary_normalize prec emax z 0 szero).

(** [Math.floor(x)]: a number with a non-negative exponent is already an
    integer; otherwise the signed mantissa is divided, rounding down. *)
Definition Math_floor (x : float) : float :=
  match Prim2SF x with
  | S754_finite s m e =>
      if (0 <=? e)%Z then x
      else floatOfZ (cond_Zopp s (Zpos m) / 2 ^ (- e))%Z s
  | _ => x
  end.

(** [ToIntegerOrInfinity] restricted to finite results: truncation
    towards zero; [None] for [NaN] and the infinities. *)
Definition toInteger (x : float) : option Z :=
  match Prim2SF x with
  | S754_zero _ => Some 0%Z
  | S754_finite s m e =>
      Some (if (0 <=? e)%Z then cond_Zopp s (Zpos m * 2 ^ e)%Z
            else cond_Zopp s (Zpos m / 2 ^ (- e))%Z)
  | _ => None
  end.

End JS.
Import JS.

(** ** The runtime's [Date] object

    The handlers only copy dates, read the month and set the month. *)

Class DateApi (Date : Type) := {
  (** [d.getMonth()] *)
  getMonth : Date -> float;
  (** [d.setMonth(m)], returning the mutated date *)
  setMonth : Date -> float -> Date;
}.

(** A calendar instance: local civil dates at midnight, [None] being the
    Invalid Date. [setMonth] follows ECMAScript's [MakeDay]: the month is
    reduced modulo 12 into the year, a day past the end of the month runs
    over into the next month, and a result farther than 100,000,000 days
    from the epoch is invalid. *)
Module Calendar.

Record civil := mkCivil { c_year : Z; c_month : Z; c_day : Z }.

Definition isLeap (y : Z) : bool :=
  ((y mod 4 =? 0) && (negb (y mod 100 =? 0) || (y mod 400 =? 0)))%Z.

Definition daysInMonth (y m : Z) : Z :=
  (if m =? 1 then (if isLeap y then 29 else 28)
   else if (m =? 3) || (m =? 5) || (m =? 8) || (m =? 10) then 30
   else 31)%Z.

(** Days from 1970-01-01 to the first day of month [m] (0-based) of [y]. *)
Definition dayFromYear (y : Z) : Z :=
  (365 * (y - 1970) + (y - 1969) / 4 - (y - 1901) / 100 + (y - 1601) / 400)%Z.

Fixpoint daysBefore (y : Z) (m : nat) : Z :=
  match m with
  | O => 0%Z
  | S k => (daysBefore y k + daysInMonth y (Z.of_nat k))%Z
  end.

Definition dayNumber (c : civil) : Z :=
  (dayFromYear (c_year c) + daysBefore (c_year c) (Z.to_nat (c_month c))
   + c_day c - 1)%Z.

Definition inRange (c : civil) : bool :=
  (Z.abs (dayNumber c) <=? 100000000)%Z.

(** [MakeDay(year, month, date)] for a date of the month in [1..31]. *)
Definition makeDay (y m d : Z) : civil :=
  let ym := (y + m / 12)%Z in
  let mn := (m mod 12)%Z in
  let dim := daysInMonth ym mn in
  if (d <=? dim)%Z then mkCivil ym mn d
  else if (mn =? 11)%Z then mkCivil (ym + 1) 0 (d - dim)
       else mkCivil ym (mn + 1) (d - dim).

Definition date : Type := option civil.

Definition monthOf (d : date) : float :=
  match d with
  | Some c => floatOfZ (c_month c) false
  | None => nan
  end.

Definition withMonth (d : date) (m : float) : date :=
  match d, toInteger m with
  | Some c, Some mz =>
      let c' := makeDay (c_year c) mz (c_day c) in
      if inRange c' then Some c' else None
  | _, _ => None
  end.

Definition api : DateApi date :=
  {| getMonth := monthOf; setMonth := withMonth |}.

End Calendar.

(** ** Documents and request bodies *)

Section Ledger.

Context {Date : Type} {D : DateApi Date}.

(** [paymentRecord] *)
Record PaymentRecord := mkPayment {
  pay_amount : float;
  pay_date : Date;
  pay_note : string;
}.

(** [penaltyRecord] *)
Record PenaltyRecord := mkPenalty {
  pen_amount : float;
  pen_reason : string;
  pen_date : Date;
  pen_type : string;
}.

(** [lastAdvancePayment] *)
Record AdvancePayment := mkAdvance {
  adv_amount : float;
  adv_monthsCovered : float;
  adv_date : Date;
  adv_originalDueDate : Date;
  adv_newDueDate : Date;
}.

(** A document of the [borrowers] collection. Fields that the handlers
    guard with [||] or [??] may be absent. *)
Record Borrower := mkBorrower {
  name : string;
  contact : string;
  address : string;
  loanAmount : option float;
  term : option float;
  interestRate : option float;
  interestType : option string;
  nextDueDate : option Date;
  monthlyPayment : option float;
  createdAt : Date;
  payments : option (list PaymentRecord);
  penalties : option (list PenaltyRecord);
  totalPenalties : option float;
  remainingBalance : option float;
  lastAdvancePayment : option AdvancePayment;
}.

(** Body of [POST /api/loans]. A numeric field holds [Number(body.f)];
    [cb_nextDueDate] holds [new Date(body.nextDueDate)] when the field is
    truthy. *)
Record CreateBody := mkCreateBody {
  cb_name : option string;
  cb_contact : option string;
  cb_address : option string;
  cb_loanAmount : float;
  cb_term : float;
  cb_interestRate : float;
  cb_interestType : option string;
  cb_nextDueDate : option Date;
  cb_monthlyPayment : float;
}.

(** [body.payment]: [pb_amount] is [Number(body.payment.amount)],
    [pb_date] is [new Date(body.payment.date)] when that field is truthy,
    [pb_updateDueDate] is the truthiness of [body.payment.updateDueDate]. *)
Record PaymentBody := mkPaymentBody {
  pb_amount : float;
  pb_date : option Date;
  pb_note : option string;
  pb_updateDueDate : bool;
}.

(** [body.penalty]: [nb_amount] is [Number(body.penalty.amount)]. *)
Record PenaltyBody := mkPenaltyBody {
  nb_amount : float;
  nb_reason : option string;
}.

(** [body.borrowerUpdate]: a numeric field is [None] when it is
    [undefined] and [Some (Number v)] otherwise. *)
Record UpdateBody := mkUpdateBody {
  ub_name : option string;
  ub_contact : option string;
  ub_address : option string;
  ub_loanAmount : option float;
  ub_term : option float;
  ub_interestRate : option float;
  ub_interestType : option string;
  ub_nextDueDate : option Date;
  ub_monthlyPayment : option float;
}.

(** Body of [PUT /api/loans]: the handler looks at [body.payment], then
    [body.penalty], then [body.borrowerUpdate]. *)
Record PutBody := mkPutBody {
  body_payment : option PaymentBody;
  body_penalty : option PenaltyBody;
  body_borrowerUpdate : option UpdateBody;
}.

(** [res.status(s).json({message, remainingBalance, totalPenalties})];
    for a creation the JSON is the new document. *)
Record Response := mkResponse {
  status : Z;
  message : string;
  res_remainingBalance : option float;
  res_totalPenalties : option float;
  res_created : option Borrower;
}.

Definition reply (s : Z) (msg : string) : Response :=
  mkResponse s msg None None None.

(** ** Loan creation *)

(** [calculateInitialBalance], lines 133-150. *)
Definition calculateInitialBalance
    (loanAmount interestRate term : float) (interestType : string) : float :=
  if (loanAmount <=? 0) || (term <=? 0) then loanAmount
  else
    let monthlyInterestRate :=
      if String.eqb interestType "annually" then interestRate / 12
      else interestRate in
    let monthlyInterest := loanAmount * (monthlyInterestRate / 100) in
    let totalInterest := monthlyInterest * term in
    loanAmount + totalInterest.

(** The [borrower] object literal, lines 152-167. *)
Definition newBorrower (now : Date) (body : CreateBody) : Borrower :=
  {| name := nullish (cb_name body) "";
     contact := nullish (cb_contact body) "";
     address := nullish (cb_address body) "";
     loanAmount := Some (orNum (cb_loanAmount body) 0);
     term := Some (orNum (cb_term body) 0);
     interestRate := Some (orNum (cb_interestRate body) 0);
     interestType := Some (orStr (cb_interestType body) "monthly");
     nextDueDate := cb_nextDueDate body;
     monthlyPayment := Some (orNum (cb_monthlyPayment body) 0);
     createdAt := now;
     payments := Some [];
     penalties := Some [];
     totalPenalties := Some 0;
     remainingBalance :=
       Some (calculateInitialBalance
               (orNum (cb_loanAmount body) 0)
               (orNum (cb_interestRate body) 0)
               (orNum (cb_term body) 0)
               (orStr (cb_interestType body) "monthly"));
     lastAdvancePayment := None |}.

(** [app.post("/api/loans")] with the database connected; [newId] is
    the [insertedId] chosen by the driver. *)
Definition handlePost (db : gmap string Borrower) (now : Date)
    (newId : string) (body : CreateBody)
    : Response * gmap string Borrower :=
  if negb (truthyStrOpt (cb_name body))
     || negb (truthyStrOpt (cb_contact body))
     || negb (truthyStrOpt (cb_address body))
  then (reply 400 "Missing required borrower fields.", db)
  else
    let borrower := newBorrower now body in
    (mkResponse 201 "" None None (Some borrower), <[newId := borrower]> db).

(** ** Sums over the history and the interest block *)

(** [(payments || []).reduce((sum, p) => sum + (p.amount || 0), 0)] *)
Definition sumPayments (l : list PaymentRecord) : float :=
  fold_left (fun sum p => sum + orNum (pay_amount p) 0) l 0.

(** [(penalties || []).reduce((sum, p) => sum + (p.amount || 0), 0)] *)
Definition sumPenalties (l : list PenaltyRecord) : float :=
  fold_left (fun sum p => sum + orNum (pen_amount p) 0) l 0.

Definition isAnnually (interestType : option string) : bool :=
  match interestType with
  | Some s => String.eqb s "annually"
  | None => false
  end.

(** The block [let totalInterest = 0; if (interestRate && term) {...}],
    written out three times in the source (lines 263-270, 366-373 and
    438-445). *)
Definition accruedInterest (loanAmount : float)
    (interestRate term : option float) (interestType : option string)
    : float :=
  match interestRate, term with
  | Some rate, Some months =>
      if truthy rate && truthy months then
        let monthlyInterestRate :=
          if isAnnually interestType then rate / 12 else rate in
        let monthlyInterest := loanAmount * (monthlyInterestRate / 100) in
        monthlyInterest * months
      else 0
  | _, _ => 0
  end.

(** ** Update operators on a document *)

(** [$push: { payments: r }] *)
Definition push_payment (r : PaymentRecord) (b : Borrower) : Borrower :=
  mkBorrower (name b) (contact b) (address b) (loanAmount b) (term b)
    (interestRate b) (interestType b) (nextDueDate b) (monthlyPayment b)
    (createdAt b) (Some (default [] (payments b) ++ [r])%list) (penalties b)
    (totalPenalties b) (remainingBalance b) (lastAdvancePayment b).

(** [$push: { penalties: r }] *)
Definition push_penalty (r : PenaltyRecord) (b : Borrower) : Borrower :=
  mkBorrower (name b) (contact b) (address b) (loanAmount b) (term b)
    (interestRate b) (interestType b) (nextDueDate b) (monthlyPayment b)
    (createdAt b) (payments b) (Some (default [] (penalties b) ++ [r])%list)
    (totalPenalties b) (remainingBalance b) (lastAdvancePayment b).

(** [$set: { remainingBalance: v }] *)
Definition set_remainingBalance (v : float) (b : Borrower) : Borrower :=
  mkBorrower (name b) (contact b) (address b) (loanAmount b) (term b)
    (interestRate b) (interestType b) (nextDueDate b) (monthlyPayment b)
    (createdAt b) (payments b) (penalties b)
    (totalPenalties b) (Some v) (lastAdvancePayment b).

(** [$set: { totalPenalties: v }] *)
Definition set_totalPenalties (v : float) (b : Borrower) : Borrower :=
  mkBorrower (name b) (contact b) (address b) (loanAmount b) (term b)
    (interestRate b) (interestType b) (nextDueDate b) (monthlyPayment b)
    (createdAt b) (payments b) (penalties b)
    (Some v) (remainingBalance b) (lastAdvancePayment b).

(** [$set: { nextDueDate: d, lastAdvancePayment: a }] *)
Definition set_advance (a : AdvancePayment) (b : Borrower) : Borrower :=
  mkBorrower (name b) (contact b) (address b) (loanAmount b) (term b)
    (interestRate b) (interestType b) (Some (adv_newDueDate a))
    (monthlyPayment b) (createdAt b) (payments b) (penalties b)
    (totalPenalties b) (remainingBalance b) (Some a).

(** ** Recording a payment, lines 224-334 *)

(** Lines 238-242. *)
Definition paymentRecordOf (now : Date) (pay : PaymentBody) : PaymentRecord :=
  {| pay_amount := orNum (pb_amount pay) 0;
     pay_date := nullish (pb_date pay) now;
     pay_note := orStr (pb_note pay) "" |}.

(** The three validation tests, lines 245-255: the message of the first
    test that fails. *)
Definition validatePayment (amount : float) : option string :=
  if negb (truthy amount) || (amount <=? 0)
  then Some "Payment amount must be greater than zero."
  else if 999999999 <? amount
  then Some "Payment amount is too large."
  else if is_nan amount
  then Some "Payment amount must be a valid number."
  else None.

(** Lines 257-272. *)
Definition paymentBalance (borrower : Borrower) (amount : float) : float :=
  let totalPayments := sumPayments (default [] (payments borrower)) + amount in
  let totalPenalties := orOpt (totalPenalties borrower) 0 in
  let loanAmount := orOpt (loanAmount borrower) 0 in
  let totalInterest :=
    accruedInterest loanAmount (interestRate borrower) (term borrower)
      (interestType borrower) in
  Math_max (loanAmount + totalInterest + totalPenalties - totalPayments) 0.

(** The due-date block, lines 280-306: the [lastAdvancePayment] written
    by the update, if any. *)
Definition advanceOf (borrower : Borrower) (updateDueDate : bool)
    (paymentRecord : PaymentRecord) : option AdvancePayment :=
  match monthlyPayment borrower, nextDueDate borrower with
  | Some monthlyPayment, Some currentDueDate =>
      if updateDueDate && truthy monthlyPayment
         && (0 <? pay_amount paymentRecord) then
        let monthsCovered :=
          Math_floor (pay_amount paymentRecord / monthlyPayment) in
        if 1 <=? monthsCovered then
          let nextDueDate :=
            setMonth currentDueDate (getMonth currentDueDate + monthsCovered) in
          Some {| adv_amount := pay_amount paymentRecord;
                  adv_monthsCovered := monthsCovered;
                  adv_date := pay_date paymentRecord;
                  adv_originalDueDate := currentDueDate;
                  adv_newDueDate := nextDueDate |}
        else None
      else None
  | _, _ => None
  end.

(** The document after [updateOne(..., updateData)]. *)
Definition applyPayment (borrower : Borrower) (updateDueDate : bool)
    (paymentRecord : PaymentRecord) : Borrower :=
  let newBalance := paymentBalance borrower (pay_amount paymentRecord) in
  let b1 := set_remainingBalance newBalance (push_payment paymentRecord borrower) in
  match advanceOf borrower updateDueDate paymentRecord with
  | Some a => set_advance a b1
  | None => b1
  end.

Definition paymentBranch (db : gmap string Borrower) (now : Date)
    (id : string) (pay : PaymentBody) : Response * gmap string Borrower :=
  match db !! id with
  | None => (reply 404 "Borrower not found.", db)
  | Some borrower =>
      let paymentRecord := paymentRecordOf now pay in
      match validatePayment (pay_amount paymentRecord) with
      | Some msg => (reply 400 msg, db)
      | None =>
          let newBalance := paymentBalance borrower (pay_amount paymentRecord) in
          (mkResponse 200 "Payment added successfully." (Some newBalance) None None,
           <[id := applyPayment borrower (pb_updateDueDate pay) paymentRecord]> db)
      end
  end.

(** ** Recording a penalty, lines 336-408 *)

(** Lines 350-355; the date is the server's clock. *)
Definition penaltyRecordOf (now : Date) (pen : PenaltyBody) : PenaltyRecord :=
  {| pen_amount := orNum (nb_amount pen) 0;
     pen_reason := orStr (nb_reason pen) "Penalty";
     pen_date := now;
     pen_type := "penalty" |}.

(** Lines 358-359. *)
Definition newTotalPenaltiesOf (borrower : Borrower) (amount : float) : float :=
  let existingPenalties := sumPenalties (default [] (penalties borrower)) in
  existingPenalties + amount.

(** Lines 362-375: [newBalance], not yet clamped. *)
Definition penaltyBalance (borrower : Borrower) (amount : float) : float :=
  let newTotalPenalties := newTotalPenaltiesOf borrower amount in
  let totalPayments := sumPayments (default [] (payments borrower)) in
  let loanAmount := orOpt (loanAmount borrower) 0 in
  let totalInterest :=
    accruedInterest loanAmount (interestRate borrower) (term borrower)
      (interestType borrower) in
  loanAmount + totalInterest + newTotalPenalties - totalPayments.

Definition applyPenalty (borrower : Borrower) (penaltyRecord : PenaltyRecord)
    : Borrower :=
  let newBalance := penaltyBalance borrower (pen_amount penaltyRecord) in
  set_totalPenalties (newTotalPenaltiesOf borrower (pen_amount penaltyRecord))
    (set_remainingBalance (Math_max newBalance 0)
       (push_penalty penaltyRecord borrower)).

Definition penaltyBranch (db : gmap string Borrower) (now : Date)
    (id : string) (pen : PenaltyBody) : Response * gmap string Borrower :=
  match db !! id with
  | None => (reply 404 "Borrower not found.", db)
  | Some borrower =>
      let penaltyRecord := penaltyRecordOf now pen in
      let newBalance := penaltyBalance borrower (pen_amount penaltyRecord) in
      (mkResponse 200 "Penalty added successfully."
         (Some (Math_max newBalance 0))
         (Some (newTotalPenaltiesOf borrower (pen_amount penaltyRecord))) None,
       <[id := applyPenalty borrower penaltyRecord]> db)
  end.

(** ** Editing a borrower, lines 411-460 *)

(** The [updateFields] object: [None] is a key that was not set. *)
Record UpdateFields := mkUpdateFields {
  uf_name : option string;
  uf_contact : option string;
  uf_address : option string;
  uf_loanAmount : option float;
  uf_term : option float;
  uf_interestRate : option float;
  uf_interestType : option string;
  uf_nextDueDate : option Date;
  uf_monthlyPayment : option float;
  uf_remainingBalance : option float;
}.

Definition ifTruthyStr (o : option string) : option string :=
  if truthyStrOpt o then o else None.

(** Lines 427-430: was a loan term supplied? *)
Definition termsSupplied (upd : UpdateBody) : bool :=
  defined (ub_loanAmount upd) || defined (ub_term upd)
  || defined (ub_interestRate upd) || truthyStrOpt (ub_interestType upd).

(** Lines 432-449. *)
Definition updateBalance (borrower : Borrower) (upd : UpdateBody) : float :=
  let loanAmount := nullish (ub_loanAmount upd) (nullish (loanAmount borrower) 0) in
  let term := nullish (ub_term upd) (nullish (term borrower) 0) in
  let interestRate :=
    nullish (ub_interestRate upd) (nullish (interestRate borrower) 0) in
  let interestType :=
    nullish (ifTruthyStr (ub_interestType upd))
      (nullish (interestType borrower) "monthly") in
  let totalInterest :=
    accruedInterest loanAmount (Some interestRate) (Some term)
      (Some interestType) in
  let totalPayments := sumPayments (default [] (payments borrower)) in
  let totalPenalties := orOpt (totalPenalties borrower) 0 in
  Math_max (loanAmount + totalInterest + totalPenalties - totalPayments) 0.

(** Lines 415-452. *)
Definition updateFieldsOf (borrower : Borrower) (upd : UpdateBody)
    : UpdateFields :=
  {| uf_name := ifTruthyStr (ub_name upd);
     uf_contact := ifTruthyStr (ub_contact upd);
     uf_address := ifTruthyStr (ub_address upd);
     uf_loanAmount := ub_loanAmount upd;
     uf_term := ub_term upd;
     uf_interestRate := ub_interestRate upd;
     uf_interestType := ifTruthyStr (ub_interestType upd);
     uf_nextDueDate := ub_nextDueDate upd;
     uf_monthlyPayment := ub_monthlyPayment upd;
     uf_remainingBalance :=
       if termsSupplied upd then Some (updateBalance borrower upd)
       else None |}.

Definition overwrite {A : Type} (new old : option A) : option A :=
  match new with Some v => Some v | None => old end.

(** [$set: updateFields] *)
Definition applySet (u : UpdateFields) (b : Borrower) : Borrower :=
  mkBorrower (nullish (uf_name u) (name b)) (nullish (uf_contact u) (contact b))
    (nullish (uf_address u) (address b))
    (overwrite (uf_loanAmount u) (loanAmount b))
    (overwrite (uf_term u) (term b))
    (overwrite (uf_interestRate u) (interestRate b))
    (overwrite (uf_interestType u) (interestType b))
    (overwrite (uf_nextDueDate u) (nextDueDate b))
    (overwrite (uf_monthlyPayment u) (monthlyPayment b))
    (createdAt b) (payments b) (penalties b) (totalPenalties b)
    (overwrite (uf_remainingBalance u) (remainingBalance b))
    (lastAdvancePayment b).

Definition applyUpdate (borrower : Borrower) (upd : UpdateBody) : Borrower :=
  applySet (updateFieldsOf borrower upd) borrower.

(** With no field set, [$set: {}] changes nothing (a server that rejects
    the empty update changes nothing either). *)
Definition updateBranch (db : gmap string Borrower) (id : string)
    (upd : UpdateBody) : Response * gmap string Borrower :=
  match db !! id with
  | None => (reply 404 "Borrower not found.", db)
  | Some borrower =>
      (reply 200 "Borrower updated successfully.",
       <[id := applyUpdate borrower upd]> db)
  end.

(** ** The handlers *)

(** [app.put("/api/loans")] with the database connected (on the file
    storage fallback [db] is [null] and line 218 throws, so every request
    is answered 500 and nothing is written). *)
Definition handlePut (db : gmap string Borrower) (now : Date)
    (id : option string) (body : PutBody) : Response * gmap string Borrower :=
  match id with
  | Some id' =>
      if truthyStr id' then
        match body_payment body, body_penalty body, body_borrowerUpdate body with
        | Some pay, _, _ => paymentBranch db now id' pay
        | None, Some pen, _ => penaltyBranch db now id' pen
        | None, None, Some upd => updateBranch db id' upd
        | None, None, None => (reply 400 "Invalid request.", db)
        end
      else (reply 400 "Missing borrower id.", db)
  | None => (reply 400 "Missing borrower id.", db)
  end.

(** [app.delete("/api/loans")]. *)
Definition handleDelete (db : gmap string Borrower) (id : option string)
    : Response * gmap string Borrower :=
  match id with
  | Some id' =>
      if truthyStr id' then
        match db !! id' with
        | Some _ => (reply 200 "Borrower deleted successfully.", delete id' db)
        | None => (reply 404 "Borrower not found.", db)
        end
      else (reply 400 "Missing borrower id.", db)
  | None => (reply 400 "Missing borrower id.", db)
  end.

(** A request that may change the collection, with the values the
    environment supplies: the clock and the driver's fresh id. *)
Inductive Request :=
| Post (now : Date) (newId : string) (body : CreateBody)
| Put (now : Date) (id : option string) (body : PutBody)
| Delete (id : option string).

Definition handle (db : gmap string Borrower) (req : Request)
    : Response * gmap string Borrower :=
  match req with
  | Post now newId body => handlePost db now newId body
  | Put now id body => handlePut db now id body
  | Delete id => handleDelete db id
  end.

(** The collections the server can reach from the empty one. *)
Inductive reachable : gmap string Borrower -> Prop :=
| reach_empty : reachable ∅
| reach_step db req : reachable db -> reachable (handle db req).2.

End Ledger.

Arguments PaymentRecord Date : clear implicits.
Arguments PenaltyRecord Date : clear implicits.
Arguments AdvancePayment Date : clear implicits.
Arguments Borrower Date : clear implicits.
Arguments CreateBody Date : clear implicits.
Arguments PaymentBody Date : clear implicits.
Arguments UpdateBody Date : clear implicits.
Arguments PutBody Date : clear implicits.
Arguments Response Date : clear implicits.
Arguments UpdateFields Date : clear implicits.
Arguments Request Date : clear implicits.

(** ** The ledger engine as the specification words it

    These definitions follow section 4.1 of the specification, not the
    source; the theorems below compare the handlers with them. *)

Module Spec.

Inductive InterestPeriod := monthly | annually.

Definition periodName (p : InterestPeriod) : string :=
  match p with monthly => "monthly" | annually => "annually" end.

(** [monthlyRate = interestPeriod == annually ? interestRate / 12 : interestRate] *)
Definition monthlyRate (interestRate : float) (p : InterestPeriod) : float :=
  match p with annually => interestRate / 12 | monthly => interestRate end.

(** [monthlyInterestAmount * termMonths] *)
Definition flatInterest (principal interestRate termMonths : float)
    (p : InterestPeriod) : float :=
  principal * (monthlyRate interestRate p / 100) * termMonths.

(** Operation [totalInterest]: the principal itself in the degenerate
    case. *)
Definition totalInterest (principal interestRate termMonths : float)
    (p : InterestPeriod) : float :=
  if (principal <=? 0) || (termMonths <=? 0) then principal
  else flatInterest principal interestRate termMonths p.

(** Operation [initialBalance]: [principal + totalInterest(...)]. *)
Definition initialBalance (principal interestRate termMonths : float)
    (p : InterestPeriod) : float :=
  principal + totalInterest principal interestRate termMonths p.

(** [max(0, principal + totalInterest + totalPenalties - totalPayments)] *)
Definition balance (principal totalInterest totalPenalties totalPayments : float)
    : float :=
  Math_max 0 (principal + totalInterest + totalPenalties - totalPayments).

(** [0 < amount <= 999_999_999], [amount] finite. *)
Definition validAmount (amount : float) : bool :=
  is_finite amount && (0 <? amount) && (amount <=? 999999999).

End Spec.

(** A stored number is non-negative unless it is [NaN]. *)
Definition nonNegativeOrNaN (x : float) : Prop :=
  is_nan x = false -> (0 <=? x) = true.

(** Shape of a specification-level float that is not below zero. *)
Definition notBelowZero (x : spec_float) : Prop :=
  match x with
  | S754_zero _ | S754_nan | S754_infinity false | S754_finite false _ _ => True
  | _ => False
  end.

(** Shape of a specification-level float that is zero or finite. *)
Definition finiteSF (x : spec_float) : Prop :=
  match x with S754_zero _ | S754_finite _ _ _ => True | _ => False end.

(** The balance recomputed from the terms of a document. *)
Definition recomputed {Date : Type} (b : Borrower Date) : float :=
  let principal := nullish (loanAmount b) 0 in
  Spec.balance principal
    (accruedInterest principal (Some (nullish (interestRate b) 0))
       (Some (nullish (term b) 0)) (Some (nullish (interestType b) "monthly")))
    (orOpt (totalPenalties b) 0) (sumPayments (default [] (payments b))).

(** [totalPenalties] is the sum of the penalty list. *)
Definition penaltiesConsistent {Date : Type} (b : Borrower Date) : Prop :=
  exists l, penalties b = Some l /\ totalPenalties b = Some (sumPenalties l).

(** A field holding the number zero. *)
Definition isZero (o : option float) : Prop :=
  exists x, o = Some x /\ (x =? 0) = true.

(** ** Example requests, run on the calendar instance *)

Module Examples.

Import Calendar.

#[local] Existing Instance Calendar.api.

Definition jan15 : date := Some (mkCivil 2024 0 15).
Definition today : date := Some (mkCivil 2024 0 20).

Definition createBody (loanAmount interestRate term : float)
    (interestType : string) (monthlyPayment : float) : CreateBody date :=
  {| cb_name := Some "Ada"; cb_contact := Some "555-0100";
     cb_address := Some "1 Main St";
     cb_loanAmount := loanAmount; cb_term := term;
     cb_interestRate := interestRate;
     cb_interestType := Some interestType;
     cb_nextDueDate := Some jan15;
     cb_monthlyPayment := monthlyPayment |}.

Definition payment (amount : float) (updateDueDate : bool) : PutBody date :=
  {| body_payment := Some (mkPaymentBody amount None None updateDueDate);
     body_penalty := None; body_borrowerUpdate := None |}.

Definition penalty (amount : float) : PutBody date :=
  {| body_payment := None;
     body_penalty := Some (mkPenaltyBody amount None);
     body_borrowerUpdate := None |}.


Definition update (upd : UpdateBody date) : PutBody date :=
  {| body_payment := None; body_penalty := None;
     body_borrowerUpdate := Some upd |}.

(** Run a list of requests from a collection. *)
Definition run (db : gmap string (Borrower date)) (reqs : list (Request date))
    : gmap string (Borrower date) :=
  fold_left (fun db req => (handle db req).2) reqs db.

(** A loan of 1000 without interest, installments of 200. *)
Definition db1000 : gmap string (Borrower date) :=
  run ∅ [Post today "a1" (createBody 1000 0 0 "monthly" 200)].

(** A loan of 1000 at 5% a month over 12 months. *)
Definition dbInterest : gmap string (Borrower date) :=
  run ∅ [Post today "a1" (createBody 1000 5 12 "monthly" 200)].

(** The loan of 1000 after a payment of 1000, then one of 50. *)
Definition paid1000 : gmap string (Borrower date) :=
  run db1000 [Put today (Some "a1") (payment 1000 false)].

Definition paid1050 : gmap string (Borrower date) :=
  run paid1000 [Put today (Some "a1") (payment 50 false)].

(** A loan of 800 at 5% a month over 5 months, which owes 1000, after the
    same two payments. *)
Definition owes1000 : gmap string (Borrower date) :=
  run ∅ [Post today "b2" (createBody 800 5 5 "monthly" 200)].


(** The loan of 1000 after a payment of 450, resp. 150, that asks for the
    due date to be advanced. *)
Definition paid450 : gmap string (Borrower date) :=
  run db1000 [Put today (Some "a1") (payment 450 true)].



(** The loan of 1000 after penalties of 100 and 50. *)
Definition dbPenalties : gmap string (Borrower date) :=
  run db1000 [Put today (Some "a1") (penalty 100);
              Put today (Some "a1") (penalty 50)].

(** The document created for 500 at 10% over 0 months. *)
Definition loan500 : Borrower date :=
  newBorrower today (createBody 500 10 0 "monthly" 0).

(** The loan at 5% after a penalty of [Infinity], then one of [-Infinity]. *)
Definition afterInfinity : Response date * gmap string (Borrower date) :=
  handle dbInterest (Put today (Some "a1") (penalty infinity)).

Definition afterBoth : Response date * gmap string (Borrower date) :=
  handle afterInfinity.2 (Put today (Some "a1") (penalty neg_infinity)).

Definition balanceOf (db : gmap string (Borrower date)) (id : string) : option float :=
  b ← db !! id; remainingBalance b.

End Examples.

(** ** Auxiliary notions for the handler facts *)

(** The document [b] with [v] as its stored balance ([None]: the field is
    absent). *)
Definition withBalance {Date : Type} (v : option float) (b : Borrower Date)
    : Borrower Date :=
  mkBorrower (name b) (contact b) (address b) (loanAmount b) (term b)
    (interestRate b) (interestType b) (nextDueDate b) (monthlyPayment b)
    (createdAt b) (payments b) (penalties b) (totalPenalties b) v
    (lastAdvancePayment b).

(** Does an accepted request with this body write the balance? A payment
    and a penalty always do, an edit when it supplies a loan term. *)
Definition writesBalance {Date : Type} (body : PutBody Date) : bool :=
  match body_payment body, body_penalty body, body_borrowerUpdate body with
  | Some pay, _, _ => Spec.validAmount (pb_amount pay)
  | None, Some _, _ => true
  | None, None, Some upd => termsSupplied upd
  | None, None, None => false
  end.

(** The fields of a document that make up the contract. *)
Definition contractOf {Date : Type} (b : Borrower Date) :=
  (name b, contact b, address b, loanAmount b, term b, interestRate b,
   interestType b, monthlyPayment b, createdAt b).

(** The shape the handlers give to every document they store: the
    required strings are non-empty, every field of the creation literal is
    present, every recorded payment passed the validation, every penalty
    record is typed ["penalty"], and a recorded advance covers at least
    one month. *)
Definition wellFormed {Date : Type} (b : Borrower Date) : bool :=
  truthyStr (name b) && truthyStr (contact b) && truthyStr (address b)
  && defined (loanAmount b) && defined (term b) && defined (interestRate b)
  && truthyStrOpt (interestType b) && defined (monthlyPayment b)
  && defined (totalPenalties b) && defined (remainingBalance b)
  && match payments b with
     | Some l => forallb (fun r => Spec.validAmount (pay_amount r)) l
     | None => false
     end
  && match penalties b with
     | Some l => forallb (fun q => String.eqb (pen_type q) "penalty") l
     | None => false
     end
  && match lastAdvancePayment b with
     | Some a => (1 <=? adv_monthsCovered a) && Spec.validAmount (adv_amount a)
     | None => true
     end.

(** ** The serverless handler ([api/index.js], the variant with the
    memory store)

    Loan creation and the balance of a payment are written as in the
    server; the PUT handler validates less, never moves the due date and
    has no penalty and no edit branch. *)

Module Serverless.

Section Handlers.

Context {Date : Type}.

(** [if (!paymentRecord.amount || paymentRecord.amount <= 0)], the only
    validation test. *)
Definition validatePayment (amount : float) : option string :=
  if negb (truthy amount) || (amount <=? 0)
  then Some "Payment amount must be greater than zero."
  else None.

(** [$push: { payments: paymentRecord }, $set: { remainingBalance }]; in
    the memory store the same two writes on [data.borrowers[i]]. *)
Definition applyPayment (borrower : Borrower Date)
    (paymentRecord : PaymentRecord Date) : Borrower Date :=
  set_remainingBalance (paymentBalance borrower (pay_amount paymentRecord))
    (push_payment paymentRecord borrower).

(** [POST] with MongoDB connected. *)
Definition handlePost (db : gmap string (Borrower Date)) (now : Date)
    (newId : string) (body : option (CreateBody Date))
    : Response Date * gmap string (Borrower Date) :=
  match body with
  | None => (reply 400 "Missing required borrower fields.", db)
  | Some body =>
      if negb (truthyStrOpt (cb_name body))
         || negb (truthyStrOpt (cb_contact body))
         || negb (truthyStrOpt (cb_address body))
      then (reply 400 "Missing required borrower fields.", db)
      else
        let borrower := newBorrower now body in
        (mkResponse 201 "" None None (Some borrower), <[newId := borrower]> db)
  end.

(** [PUT] with MongoDB connected. *)
Definition handlePut (db : gmap string (Borrower Date)) (now : Date)
    (id : option string) (body : PutBody Date)
    : Response Date * gmap string (Borrower Date) :=
  match id with
  | Some id' =>
      if truthyStr id' then
        match body_payment body, body_penalty body with
        | Some pay, _ =>
            match db !! id' with
            | None => (reply 404 "Borrower not found.", db)
            | Some borrower =>
                let paymentRecord := paymentRecordOf now pay in
                match validatePayment (pay_amount paymentRecord) with
                | Some msg => (reply 400 msg, db)
                | None =>
                    let newBalance :=
                      paymentBalance borrower (pay_amount paymentRecord) in
                    (mkResponse 200 "Payment added successfully."
                       (Some newBalance) None None,
                     <[id' := applyPayment borrower paymentRecord]> db)
                end
            end
        | None, Some _ =>
            (reply 200
               "Penalty functionality available but simplified in this version",
             db)
        | None, None => (reply 400 "Invalid request.", db)
        end
      else (reply 400 "Missing borrower id.", db)
  | None => (reply 400 "Missing borrower id.", db)
  end.

(** *** The memory store: [memoryData.borrowers], an array of documents
    with their [_id] *)







End Handlers.

End Serverless.

(** ** The first handler ([api/loans.js])

    Loans carry no penalties; a payment is not validated and is
    subtracted from the stored balance. *)

Module Legacy.

Section Handlers.

Context {Date : Type}.

(** The [borrower] object literal. *)
Definition newBorrower (now : Date) (body : CreateBody Date) : Borrower Date :=
  {| name := nullish (cb_name body) "";
     contact := nullish (cb_contact body) "";
     address := nullish (cb_address body) "";
     loanAmount := Some (orNum (cb_loanAmount body) 0);
     term := Some (orNum (cb_term body) 0);
     interestRate := Some (orNum (cb_interestRate body) 0);
     interestType := Some (orStr (cb_interestType body) "monthly");
     nextDueDate := cb_nextDueDate body;
     monthlyPayment := Some (orNum (cb_monthlyPayment body) 0);
     createdAt := now;
     payments := Some [];
     penalties := None;
     totalPenalties := None;
     remainingBalance := Some (orNum (cb_loanAmount body) 0);
     lastAdvancePayment := None |}.

Definition handlePost (db : gmap string (Borrower Date)) (now : Date)
    (newId : string) (body : CreateBody Date)
    : Response Date * gmap string (Borrower Date) :=
  if negb (truthyStrOpt (cb_name body))
     || negb (truthyStrOpt (cb_contact body))
     || negb (truthyStrOpt (cb_address body))
  then (reply 400 "Missing required borrower fields.", db)
  else
    let borrower := newBorrower now body in
    (mkResponse 201 "" None None (Some borrower), <[newId := borrower]> db).

(** [Math.max((borrower.remainingBalance ?? borrower.loanAmount) -
    paymentRecord.amount, 0)]; with both fields absent the difference is
    [undefined - amount], which is NaN. *)
Definition paymentBalance (borrower : Borrower Date) (amount : float) : float :=
  Math_max (nullish (remainingBalance borrower)
              (nullish (loanAmount borrower) nan) - amount) 0.

Definition applyPayment (borrower : Borrower Date)
    (paymentRecord : PaymentRecord Date) : Borrower Date :=
  set_remainingBalance (paymentBalance borrower (pay_amount paymentRecord))
    (push_payment paymentRecord borrower).

(** The [PUT] block; a body without [payment] falls through to the end of
    the handler, which answers 405. *)
Definition handlePut (db : gmap string (Borrower Date)) (now : Date)
    (id : option string) (body : PutBody Date)
    : Response Date * gmap string (Borrower Date) :=
  match id with
  | Some id' =>
      if truthyStr id' then
        match body_payment body with
        | Some pay =>
            let paymentRecord := paymentRecordOf now pay in
            match db !! id' with
            | None => (reply 404 "Borrower not found.", db)
            | Some borrower =>
                let newBalance :=
                  paymentBalance borrower (pay_amount paymentRecord) in
                (mkResponse 200 "Payment added successfully."
                   (Some newBalance) None None,
                 <[id' := applyPayment borrower paymentRecord]> db)
            end
        | None => (reply 405 "Method PUT Not Allowed", db)
        end
      else (reply 400 "Missing borrower id.", db)
  | None => (reply 400 "Missing borrower id.", db)
  end.

End Handlers.

End Legacy.

(** * Facts about binary64 arithmetic

    The primitive operations are specified by the Standard Library through
    [Prim2SF]; the lemmas below are the few consequences the ledger needs:
    how [NaN] and the zeros behave under [||], [Math.max] and [+], and the
    sign of sums, products and quotients of non-negative numbers. *)

Module FloatFacts.

Lemma SFcompare_refl x : x <> S754_nan -> SFcompare x x = Some Eq.
Proof.
  destruct x as [s|s| |s m e]; try destruct s; simpl; try congruence; intros _;
    rewrite Z.compare_refl, Pos.compare_cont_refl; reflexivity.
Qed.

Lemma is_nan_spec x : is_nan x = true <-> Prim2SF x = S754_nan.
Proof.
  unfold is_nan. rewrite FloatAxioms.eqb_spec. unfold SFeqb. split.
  - destruct (Prim2SF x) eqn:E; auto; rewrite SFcompare_refl; simpl; congruence.
  - intros ->. reflexivity.
Qed.

Lemma is_nan_false x : is_nan x = false <-> Prim2SF x <> S754_nan.
Proof.
  rewrite <- is_nan_spec. destruct (is_nan x); split; congruence.
Qed.

Lemma is_zero_spec x : is_zero x = true <-> exists s, Prim2SF x = S754_zero s.
Proof.
  unfold is_zero. rewrite FloatAxioms.eqb_spec. unfold SFeqb. change (Prim2SF zero) with (S754_zero false).
  destruct (Prim2SF x) as [s|s| |s m e]; simpl; split; try destruct s; try congruence; eauto;
   intros [s' Hs]; congruence.
Qed.

Lemma zero_cases x s : Prim2SF x = S754_zero s -> x = (if s then neg_zero else zero).
Proof.
  intros H. rewrite <- (SF2Prim_Prim2SF x), H. destruct s; reflexivity.
Qed.

Lemma Math_max_zero_comm x : Math_max x 0 = Math_max 0 x.
Proof.
  unfold Math_max.
  destruct (Prim2SF x) as [s|s| |s m e] eqn:E.
  - apply zero_cases in E. subst x. destruct s; reflexivity.
  - rewrite !ltb_spec, E. change (Prim2SF 0) with (S754_zero false).
    assert (Hn : is_nan x = false) by (apply is_nan_false; congruence).
    rewrite Hn. change (is_nan 0) with false. destruct s; reflexivity.
  - apply is_nan_spec in E. rewrite E. reflexivity.
  - rewrite !ltb_spec, E. change (Prim2SF 0) with (S754_zero false).
    assert (Hn : is_nan x = false) by (apply is_nan_false; congruence).
    rewrite Hn. change (is_nan 0) with false. destruct s; reflexivity.
Qed.

Lemma Math_max_zero_nan x : is_nan (Math_max x 0) = is_nan x.
Proof.
  unfold Math_max.
  destruct (Prim2SF x) as [s|s| |s m e] eqn:E.
  - apply zero_cases in E. subst x. destruct s; reflexivity.
  - assert (Hn : is_nan x = false) by (apply is_nan_false; congruence).
    rewrite !ltb_spec, E, Hn. change (Prim2SF 0) with (S754_zero false).
    destruct s; simpl; auto.
  - apply is_nan_spec in E. rewrite E. reflexivity.
  - assert (Hn : is_nan x = false) by (apply is_nan_false; congruence).
    rewrite !ltb_spec, E, Hn. change (Prim2SF 0) with (S754_zero false).
    destruct s; simpl; auto.
Qed.

Lemma Math_max_zero_nonneg x : is_nan x = false -> (0 <=? Math_max x 0) = true.
Proof.
  intros Hn. unfold Math_max. rewrite Hn. change (is_nan 0) with false. simpl.
  destruct (Prim2SF x) as [s|s| |s m e] eqn:E.
  - apply zero_cases in E. subst x. destruct s; reflexivity.
  - rewrite !ltb_spec, E. change (Prim2SF 0) with (S754_zero false).
    destruct s; simpl; auto. rewrite leb_spec, E. reflexivity.
  - apply is_nan_false in Hn. congruence.
  - rewrite !ltb_spec, E. change (Prim2SF 0) with (S754_zero false).
    destruct s; simpl; auto. rewrite leb_spec, E. reflexivity.
Qed.

Lemma add_zero_r x : Prim2SF x <> S754_zero true -> x + 0 = x.
Proof.
  intros H. apply Prim2SF_inj. rewrite add_spec. change (Prim2SF 0) with (S754_zero false).
  destruct (Prim2SF x) as [s|s| |s m e]; try destruct s; simpl; congruence.
Qed.

Lemma add_neg_zero_l p : Prim2SF p <> S754_zero true -> neg_zero + 0 + p = neg_zero + p.
Proof.
  intros H. apply Prim2SF_inj. rewrite !add_spec.
  change (Prim2SF 0) with (S754_zero false). change (Prim2SF neg_zero) with (S754_zero true).
  destruct (Prim2SF p) as [s|s| |s m e]; try destruct s; simpl; congruence.
Qed.

Lemma truthy_spec x : truthy x = true <-> 
  match Prim2SF x with S754_zero _ | S754_nan => False | _ => True end.
Proof.
  unfold truthy. rewrite negb_true_iff, orb_false_iff, is_nan_false.
  destruct (is_zero x) eqn:Z.
  - apply is_zero_spec in Z. destruct Z as [s ->]. intuition congruence.
  - assert (~ exists s, Prim2SF x = S754_zero s) by (rewrite <- is_zero_spec; congruence).
    destruct (Prim2SF x); intuition eauto; congruence.
Qed.

Lemma orNum_not_neg_zero x : Prim2SF (orNum x 0) <> S754_zero true.
Proof.
  unfold orNum. destruct (truthy x) eqn:T.
  - apply truthy_spec in T. destruct (Prim2SF x); congruence || tauto.
  - discriminate.
Qed.

Lemma orNum_idem x : orNum (orNum x 0) 0 = orNum x 0.
Proof.
  unfold orNum at 2 3. destruct (truthy x) eqn:T.
  - unfold orNum. rewrite T. reflexivity.
  - reflexivity.
Qed.

Lemma SFcompare_antisym x y :
  SFcompare y x = option_map CompOpp (SFcompare x y).
Proof.
  destruct x as [s|s| |s m e], y as [s'|s'| |s' m' e']; simpl; auto;
    try destruct s; try destruct s'; simpl; auto;
    rewrite (Z.compare_antisym e e'); destruct (e ?= e')%Z; simpl; auto;
    rewrite (Pos.compare_cont_antisym m m' Eq); reflexivity.
Qed.

Lemma leb_negb_ltb x y :
  is_nan x = false -> is_nan y = false -> (x <=? y) = negb (y <? x).
Proof.
  rewrite !is_nan_false, leb_spec, ltb_spec. unfold SFleb, SFltb.
  rewrite (SFcompare_antisym (Prim2SF x) (Prim2SF y)). intros Hx Hy.
  destruct (Prim2SF x) as [s|s| |s m e], (Prim2SF y) as [s'|s'| |s' m' e']; try congruence; simpl;
  try destruct s; try destruct s'; simpl; auto;
  destruct (e ?= e')%Z; simpl; auto; destruct (Pos.compare_cont Eq m m'); simpl; auto.
Qed.

Lemma is_infinity_spec x :
  is_infinity x = true <-> exists s, Prim2SF x = S754_infinity s.
Proof.
  unfold is_infinity. rewrite FloatAxioms.eqb_spec, abs_spec.
  change (Prim2SF infinity) with (S754_infinity false). unfold SFeqb.
  destruct (Prim2SF x) as [s|s| |s m e]; simpl; split; try congruence; eauto;
    intros [s' Hs]; congruence.
Qed.

Lemma is_finite_spec x :
  is_finite x = true <->
  match Prim2SF x with S754_zero _ | S754_finite _ _ _ => True | _ => False end.
Proof.
  unfold is_finite. rewrite negb_true_iff, orb_false_iff, is_nan_false.
  destruct (is_infinity x) eqn:I.
  - apply is_infinity_spec in I. destruct I as [s ->]. intuition congruence.
  - assert (~ exists s, Prim2SF x = S754_infinity s)
      by (rewrite <- is_infinity_spec; congruence).
    destruct (Prim2SF x); intuition eauto; congruence.
Qed.

Lemma ltb_zero_shape x :
  (0 <? x) = true ->
  match Prim2SF x with S754_infinity false | S754_finite false _ _ => True | _ => False end.
Proof.
  rewrite ltb_spec. change (Prim2SF 0) with (S754_zero false). unfold SFltb.
  destruct (Prim2SF x) as [s|s| |s m e]; try destruct s; simpl; congruence || auto.
Qed.

Lemma leb_zero_shape x : (0 <=? x) = true -> notBelowZero (Prim2SF x) /\ is_nan x = false.
Proof.
  rewrite is_nan_false, leb_spec. change (Prim2SF 0) with (S754_zero false). unfold SFleb.
  destruct (Prim2SF x) as [s|s| |s m e]; try destruct s; simpl; try congruence; auto;
   split; auto; congruence.
Qed.

Lemma notBelowZero_leb x :
  notBelowZero (Prim2SF x) -> nonNegativeOrNaN x.
Proof.
  unfold nonNegativeOrNaN. rewrite is_nan_false, leb_spec.
  change (Prim2SF 0) with (S754_zero false). unfold SFleb.
  destruct (Prim2SF x) as [s|s| |s m e]; try destruct s; simpl; try congruence; tauto.
Qed.

Lemma round_notBelowZero m e l : notBelowZero (binary_round_aux prec emax false m e l).
Proof.
  unfold binary_round_aux.
  destruct (shr_fexp prec emax m e l) as [mrs' e'].
  destruct (shr_fexp prec emax _ e' loc_Exact) as [mrs'' e''].
  destruct (shr_m mrs''); simpl; auto.
  destruct (e'' <=? emax - prec)%Z; simpl; auto.
Qed.

Lemma SFmul_notBelowZero a b :
  notBelowZero a -> notBelowZero b -> notBelowZero (SFmul prec emax a b).
Proof.
  destruct a as [s|s| |s m e], b as [s'|s'| |s' m' e']; simpl; auto;
    try destruct s; try destruct s'; simpl; try tauto; intros _ _.
  apply round_notBelowZero.
Qed.

Lemma SFdiv_notBelowZero a m' e' :
  notBelowZero a -> notBelowZero (SFdiv prec emax a (S754_finite false m' e')).
Proof.
  destruct a as [s|s| |s m e]; simpl; auto; try destruct s; simpl; try tauto; intros _.
  destruct (SFdiv_core_binary prec emax (Z.pos m) e (Z.pos m') e') as [[mz ez] lz].
  apply round_notBelowZero.
Qed.

Lemma SFadd_notBelowZero a b :
  notBelowZero a -> notBelowZero b -> notBelowZero (SFadd prec emax a b).
Proof.
  destruct a as [s|s| |s m e], b as [s'|s'| |s' m' e']; simpl; auto;
    try destruct s; try destruct s'; simpl; try tauto; intros _ _.
  unfold binary_round.
  destruct (shl_align _ _ _) as [mz ez]. apply round_notBelowZero.
Qed.

(** The rounding functions never produce [NaN] from a non-negative
    mantissa, so sums and differences with a finite operand are numbers. *)
Lemma shr_1_nonneg mrs : (0 <= shr_m mrs)%Z -> (0 <= shr_m (shr_1 mrs))%Z.
Proof.
  destruct mrs as [m r s]. simpl. destruct m as [|p|p]; try destruct p; simpl; lia.
Qed.

Lemma iter_shr_1_nonneg p :
  forall mrs, (0 <= shr_m mrs)%Z -> (0 <= shr_m (SpecFloat.iter_pos shr_1 p mrs))%Z.
Proof.
  induction p as [p IH|p IH|]; simpl; intros mrs H.
  - apply IH, IH, shr_1_nonneg, H.
  - apply IH, IH, H.
  - apply shr_1_nonneg, H.
Qed.

Lemma shr_fexp_nonneg m e l :
  (0 <= m)%Z -> (0 <= shr_m (shr_fexp prec emax m e l).1)%Z.
Proof.
  intros H. unfold shr_fexp, shr.
  assert (H0 : (0 <= shr_m (shr_record_of_loc m l))%Z)
    by (destruct l as [|[]]; exact H).
  destruct (fexp prec emax (Zdigits2 m + e) - e)%Z; simpl; auto.
  apply iter_shr_1_nonneg, H0.
Qed.

Lemma round_nearest_even_nonneg m l :
  (0 <= m)%Z -> (0 <= round_nearest_even m l)%Z.
Proof.
  intros H. destruct l as [|[]]; simpl; try destruct (Z.even m); lia.
Qed.

Lemma round_not_nan s m e l :
  (0 <= m)%Z -> binary_round_aux prec emax s m e l <> S754_nan.
Proof.
  intros H. unfold binary_round_aux.
  pose proof (shr_fexp_nonneg m e l H) as H1.
  destruct (shr_fexp prec emax m e l) as [mrs' e']. simpl in H1.
  pose proof (shr_fexp_nonneg _ e' loc_Exact
                (round_nearest_even_nonneg _ (loc_of_shr_record mrs') H1)) as H2.
  destruct (shr_fexp prec emax _ e' loc_Exact) as [mrs'' e'']. simpl in H2.
  destruct (shr_m mrs''); try lia; try discriminate.
  destruct (e'' <=? emax - prec)%Z; discriminate.
Qed.

Lemma normalize_not_nan z e : binary_normalize prec emax z e false <> S754_nan.
Proof.
  destruct z; simpl; try discriminate; unfold binary_round;
    destruct (shl_align _ _ _); apply round_not_nan; lia.
Qed.

Lemma SFadd_not_nan_l a b :
  finiteSF a -> b <> S754_nan -> SFadd prec emax a b <> S754_nan.
Proof.
  destruct a as [s|s| |s m e], b as [s'|s'| |s' m' e']; simpl; try tauto;
    try destruct s; try destruct s'; try discriminate; intros _ _;
    apply normalize_not_nan.
Qed.

Lemma SFadd_not_nan_r a b :
  a <> S754_nan -> finiteSF b -> SFadd prec emax a b <> S754_nan.
Proof.
  destruct a as [s|s| |s m e], b as [s'|s'| |s' m' e']; simpl; try tauto;
    try destruct s; try destruct s'; try discriminate; intros _ _;
    apply normalize_not_nan.
Qed.

Lemma SFsub_not_nan_r a b :
  a <> S754_nan -> finiteSF b -> SFsub prec emax a b <> S754_nan.
Proof.
  destruct a as [s|s| |s m e], b as [s'|s'| |s' m' e']; simpl; try tauto;
    try destruct s; try destruct s'; try discriminate; intros _ _;
    apply normalize_not_nan.
Qed.

(** The sum [L + I + P - T] of the ledger is a number when the principal
    and both totals are finite and the interest is a number. *)
Lemma ledger_sum_not_nan (L I P T : float) :
  is_finite L = true -> is_nan I = false ->
  is_finite P = true -> is_finite T = true ->
  is_nan (L + I + P - T) = false.
Proof.
  rewrite !is_finite_spec, !is_nan_false, sub_spec, !add_spec.
  intros HL HI HP HT.
  apply SFsub_not_nan_r; [|exact HT].
  apply SFadd_not_nan_r; [|exact HP].
  apply SFadd_not_nan_l; assumption.
Qed.

End FloatFacts.
Import FloatFacts.

#[local] Existing Instance Calendar.api.

(** * Loan creation *)

Lemma positive_not_leb_zero x : (0 <? x) = true -> (x <=? 0) = false.
Proof.
  intros H. pose proof (ltb_zero_shape x H) as S.
  rewrite leb_spec. change (Prim2SF 0) with (S754_zero false). unfold SFleb.
  destruct (Prim2SF x) as [s|s| |s m e]; try destruct s; simpl in *; tauto || reflexivity.
Qed.

Lemma positive_truthy x : (0 <? x) = true -> truthy x = true.
Proof.
  intros H. apply truthy_spec. pose proof (ltb_zero_shape x H) as S.
  destruct (Prim2SF x) as [s|s| |s m e]; try destruct s; simpl in *; tauto.
Qed.

Lemma isAnnually_periodName p :
  isAnnually (Some (Spec.periodName p)) =
  match p with Spec.annually => true | Spec.monthly => false end.
Proof. destruct p; reflexivity. Qed.

(** C3: for principal > 0 and termMonths > 0 the interest charged is
    [principal * (monthlyRate / 100) * termMonths], the monthly rate being
    [interestRate / 12] for an annual rate and [interestRate] for a monthly
    one; it is what [calculateInitialBalance] adds to the principal, and
    what the interest block of the mutation paths computes when it runs
    (rate and term truthy). A loan of 10000 at 5% monthly over 12 months
    owes 6000 of interest and 16000 in all; 1000 at 12% annually over 6
    months owes 60 of interest. *)
Theorem flat_interest_formula :
  (forall (P R T : float) (p : Spec.InterestPeriod),
      (0 <? P) = true -> (0 <? T) = true ->
      calculateInitialBalance P R T (Spec.periodName p)
      = P + P * (Spec.monthlyRate R p / 100) * T)
  /\ (forall (P R T : float) (p : Spec.InterestPeriod),
      (0 <? P) = true -> (0 <? T) = true -> truthy R = true ->
      accruedInterest P (Some R) (Some T) (Some (Spec.periodName p))
      = P * (Spec.monthlyRate R p / 100) * T)
  /\ calculateInitialBalance 10000 5 12 "monthly" = 16000
  /\ Spec.flatInterest 10000 5 12 Spec.monthly = 6000
  /\ Spec.flatInterest 1000 12 6 Spec.annually = 60
  /\ calculateInitialBalance 1000 12 6 "annually" = 1060.
Proof.
  split; [|split; [|repeat split; reflexivity]].
  - intros P R T p HP HT. unfold calculateInitialBalance.
    rewrite (positive_not_leb_zero P HP), (positive_not_leb_zero T HT).
    destruct p; reflexivity.
  - intros P R T p _ HT HR. unfold accruedInterest.
    rewrite HR, (positive_truthy T HT), isAnnually_periodName.
    destruct p; reflexivity.
Qed.

Lemma flat_interest_formula_witness :
  calculateInitialBalance 1000 12 6 (Spec.periodName Spec.annually)
  = 1000 + 1000 * (Spec.monthlyRate 12 Spec.annually / 100) * 6.
Proof.
  apply (proj1 flat_interest_formula); reflexivity.
Defined.

(** C4, as the specification words it, fails: with a zero term the
    specification's [initialBalance] counts the principal twice, while the
    balance stored at creation is the principal. *)
Lemma initial_balance_not_doubled :
  Spec.totalInterest 500 10 0 Spec.monthly = 500
  /\ Spec.initialBalance 500 10 0 Spec.monthly = 1000
  /\ remainingBalance Examples.loan500 = Some 500
  /\ remainingBalance Examples.loan500
     <> Some (Spec.initialBalance 500 10 0 Spec.monthly).
Proof.
  repeat split; try reflexivity.
  vm_compute. intros H. discriminate H.
Qed.

(** C4 (amended): when the principal or the term is not positive,
    [calculateInitialBalance] returns the principal unchanged: it is the
    whole initial balance, with no interest added (500 for a principal of
    500 at 10% over 0 months); otherwise it returns the principal plus the
    flat interest. The value is stored as [remainingBalance] of the new
    document, whose payment and penalty histories are empty. *)
Theorem initial_balance_at_creation :
  (forall (P R T : float) (ty : string),
      (P <=? 0) = true \/ (T <=? 0) = true ->
      calculateInitialBalance P R T ty = P)
  /\ calculateInitialBalance 500 10 0 "monthly" = 500
  /\ (forall (P R T : float) (p : Spec.InterestPeriod),
      (P <=? 0) = false -> (T <=? 0) = false ->
      calculateInitialBalance P R T (Spec.periodName p)
      = P + Spec.flatInterest P R T p)
  /\ (forall (Date : Type) (now : Date) (body : CreateBody Date),
      let b := newBorrower now body in
      remainingBalance b
      = Some (calculateInitialBalance
                (orNum (cb_loanAmount body) 0) (orNum (cb_interestRate body) 0)
                (orNum (cb_term body) 0) (orStr (cb_interestType body) "monthly"))
      /\ loanAmount b = Some (orNum (cb_loanAmount body) 0)
      /\ payments b = Some [] /\ penalties b = Some []
      /\ totalPenalties b = Some 0).
Proof.
  split; [|split; [reflexivity|split]].
  - intros P R T ty H. unfold calculateInitialBalance.
    destruct H as [-> | ->]; [reflexivity | now rewrite orb_true_r].
  - intros P R T p HP HT. unfold calculateInitialBalance. rewrite HP, HT.
    destruct p; reflexivity.
  - intros Date now body. repeat split.
Qed.

Lemma initial_balance_at_creation_witness :
  calculateInitialBalance 500 10 0 "weekly" = 500.
Proof.
  apply (proj1 initial_balance_at_creation). right. reflexivity.
Defined.

(** * Recording a payment *)

Lemma truthy_not_nan x : truthy x = true -> is_nan x = false.
Proof.
  unfold truthy. rewrite negb_true_iff, orb_false_iff. tauto.
Qed.

Lemma orNum_truthy x : truthy x = true -> orNum x 0 = x.
Proof. unfold orNum. now intros ->. Qed.

Lemma orNum_falsy x : truthy x = false -> orNum x 0 = 0.
Proof. unfold orNum. now intros ->. Qed.

Lemma bounded_positive_finite x c :
  (0 <? x) = true -> (x <=? c) = true -> is_finite c = true -> is_finite x = true.
Proof.
  intros H0 Hc Fc. apply is_finite_spec. apply is_finite_spec in Fc.
  apply ltb_zero_shape in H0. rewrite leb_spec in Hc. unfold SFleb in Hc.
  destruct (Prim2SF x) as [s|s| |s m e]; try destruct s; simpl in *; try tauto.
  destruct (Prim2SF c) as [s'|s'| |s' m' e']; try destruct s'; simpl in *;
    congruence || tauto.
Qed.

(** The handler's three tests accept exactly the finite amounts in
    [(0, 999999999]]. *)
Lemma validatePayment_accepts raw :
  validatePayment (orNum raw 0) = None <-> Spec.validAmount raw = true.
Proof.
  unfold Spec.validAmount, validatePayment. split.
  - destruct (truthy (orNum raw 0)) eqn:T; simpl; [|discriminate].
    assert (Traw : truthy raw = true).
    { destruct (truthy raw) eqn:T'; auto. rewrite (orNum_falsy _ T') in T. discriminate. }
    rewrite (orNum_truthy _ Traw). pose proof (truthy_not_nan _ Traw) as N.
    rewrite (leb_negb_ltb raw 0 N eq_refl).
    destruct (0 <? raw) eqn:P; simpl; [|discriminate].
    destruct (999999999 <? raw) eqn:B; [discriminate|]. intros _.
    assert (Hle : (raw <=? 999999999) = true)
      by (rewrite (leb_negb_ltb raw 999999999 N eq_refl), B; reflexivity).
    rewrite Hle, (bounded_positive_finite raw 999999999 P Hle eq_refl). reflexivity.
  - rewrite !andb_true_iff. intros [[F P] B].
    pose proof (positive_truthy _ P) as T. pose proof (truthy_not_nan _ T) as N.
    rewrite (orNum_truthy _ T), T, N. simpl.
    rewrite (leb_negb_ltb raw 0 N eq_refl), P. simpl.
    rewrite (leb_negb_ltb raw 999999999 N eq_refl) in B.
    apply negb_true_iff in B. rewrite B. reflexivity.
Qed.

Lemma validAmount_orNum raw : Spec.validAmount raw = true -> orNum raw 0 = raw.
Proof.
  unfold Spec.validAmount. rewrite !andb_true_iff. intros [[_ P] _].
  apply orNum_truthy, positive_truthy, P.
Qed.

Section PaymentFacts.

Context {Date : Type} {D : DateApi Date}.
Variables (db : gmap string (Borrower Date)) (now : Date) (id : string).
Variables (pay : PaymentBody Date) (pen : option PenaltyBody) (upd : option (UpdateBody Date)).
Variable b : Borrower Date.
Hypothesis Hid : truthyStr id = true.
Hypothesis Hb : db !! id = Some b.

Lemma handlePut_payment :
  handlePut db now (Some id) (mkPutBody (Some pay) pen upd)
  = match validatePayment (orNum (pb_amount pay) 0) with
    | Some msg => (reply 400 msg, db)
    | None =>
        (mkResponse 200 "Payment added successfully."
           (Some (paymentBalance b (orNum (pb_amount pay) 0))) None None,
         <[id := applyPayment b (pb_updateDueDate pay) (paymentRecordOf now pay)]> db)
    end.
Proof.
  unfold handlePut. rewrite Hid. simpl. unfold paymentBranch. rewrite Hb. reflexivity.
Qed.

End PaymentFacts.

(** C5: a payment is accepted exactly when its amount is a finite number
    with [0 < amount <= 999999999]; any other amount is answered with
    status 400 and the collection is left as it was. The amounts -5, 0, NaN
    and 2000000000 are each rejected in this way. *)
Theorem payment_validation :
  (forall (Date : Type) (D : DateApi Date) (db : gmap string (Borrower Date))
          (now : Date) (id : string) (pay : PaymentBody Date)
          (pen : option PenaltyBody) (upd : option (UpdateBody Date))
          (b : Borrower Date),
      truthyStr id = true -> db !! id = Some b ->
      let result := handlePut db now (Some id) (mkPutBody (Some pay) pen upd) in
      (status result.1 = 200%Z <-> Spec.validAmount (pb_amount pay) = true)
      /\ (Spec.validAmount (pb_amount pay) = false ->
          status result.1 = 400%Z /\ result.2 = db))
  /\ Forall (fun a => Spec.validAmount a = false) [-5; 0; nan; 2000000000]
  /\ Forall (fun a =>
               status (handlePut Examples.db1000 Examples.today (Some "a1")
                         (Examples.payment a false)).1 = 400%Z
               /\ (handlePut Examples.db1000 Examples.today (Some "a1")
                     (Examples.payment a false)).2 = Examples.db1000)
       [-5; 0; nan; 2000000000].
Proof.
  split; [|split; repeat constructor].
  intros Date D db now id pay pen upd b Hid Hb result. subst result.
  rewrite (handlePut_payment db now id pay pen upd b Hid Hb).
  pose proof (validatePayment_accepts (pb_amount pay)) as A.
  destruct (validatePayment (orNum (pb_amount pay) 0)) as [msg|] eqn:V; simpl.
  - assert (Spec.validAmount (pb_amount pay) = false) as ->.
    { destruct (Spec.validAmount (pb_amount pay)); auto.
      destruct A as [_ A]. discriminate (A eq_refl). }
    split; [split; discriminate|]. auto.
  - rewrite (proj1 A eq_refl).
    split; [split; reflexivity|]. discriminate.
Qed.

Lemma payment_validation_witness :
  status (handlePut Examples.db1000 Examples.today (Some "a1")
            (Examples.payment infinity false)).1 = 400%Z
  /\ (handlePut Examples.db1000 Examples.today (Some "a1")
        (Examples.payment infinity false)).2 = Examples.db1000.
Proof.
  exact (proj2 (proj1 payment_validation _ Calendar.api Examples.db1000
            Examples.today "a1" (mkPaymentBody infinity None None false) None None
            _ eq_refl eq_refl) eq_refl).
Defined.

Section ApplyPayment.

Context {Date : Type} {D : DateApi Date}.
Variables (b : Borrower Date) (updateDueDate : bool) (r : PaymentRecord Date).

Lemma applyPayment_payments :
  payments (applyPayment b updateDueDate r) = Some (default [] (payments b) ++ [r])%list.
Proof. unfold applyPayment. destruct (advanceOf b updateDueDate r); reflexivity. Qed.

Lemma applyPayment_balance :
  remainingBalance (applyPayment b updateDueDate r)
  = Some (paymentBalance b (pay_amount r)).
Proof. unfold applyPayment. destruct (advanceOf b updateDueDate r); reflexivity. Qed.

Lemma applyPayment_penalties :
  penalties (applyPayment b updateDueDate r) = penalties b
  /\ totalPenalties (applyPayment b updateDueDate r) = totalPenalties b.
Proof. unfold applyPayment. destruct (advanceOf b updateDueDate r); split; reflexivity. Qed.

Lemma applyPayment_terms :
  loanAmount (applyPayment b updateDueDate r) = loanAmount b
  /\ term (applyPayment b updateDueDate r) = term b
  /\ interestRate (applyPayment b updateDueDate r) = interestRate b
  /\ interestType (applyPayment b updateDueDate r) = interestType b.
Proof. unfold applyPayment. destruct (advanceOf b updateDueDate r); repeat split. Qed.

Lemma applyPayment_dueDate :
  nextDueDate (applyPayment b updateDueDate r)
  = match advanceOf b updateDueDate r with
    | Some a => Some (adv_newDueDate a)
    | None => nextDueDate b
    end
  /\ lastAdvancePayment (applyPayment b updateDueDate r)
     = match advanceOf b updateDueDate r with
       | Some a => Some a
       | None => lastAdvancePayment b
       end.
Proof. unfold applyPayment. destruct (advanceOf b updateDueDate r); split; reflexivity. Qed.

End ApplyPayment.

Lemma paymentBalance_spec {Date : Type} (b : Borrower Date) (a : float) :
  paymentBalance b a
  = Spec.balance (orOpt (loanAmount b) 0)
      (accruedInterest (orOpt (loanAmount b) 0) (interestRate b) (term b)
         (interestType b))
      (orOpt (totalPenalties b) 0)
      (sumPayments (default [] (payments b)) + a).
Proof. unfold paymentBalance, Spec.balance. apply Math_max_zero_comm. Qed.




(** * The due-date rollforward *)

Section Rollforward.

Context {Date : Type} {D : DateApi Date}.
Variables (b : Borrower Date) (r : PaymentRecord Date).
Variables (monthlyPayment' : float) (due : Date).
Hypothesis Hmp : monthlyPayment b = Some monthlyPayment'.
Hypothesis Hpos : (0 <? monthlyPayment') = true.
Hypothesis Hdue : nextDueDate b = Some due.
Hypothesis Ha : (0 <? pay_amount r) = true.



End Rollforward.

Lemma validAmount_positive raw : Spec.validAmount raw = true -> (0 <? raw) = true.
Proof. unfold Spec.validAmount. rewrite !andb_true_iff. tauto. Qed.

(** In the calendar instance [MakeDay] moves a day that exists in every
    month forward by exactly the months added. *)
Lemma makeDay_advances_months (y m d n : Z) :
  (1 <= d <= 28)%Z ->
  let c := Calendar.makeDay y (m + n) d in
  (12 * Calendar.c_year c + Calendar.c_month c = 12 * y + m + n)%Z
  /\ (0 <= Calendar.c_month c < 12)%Z
  /\ Calendar.c_day c = d.
Proof.
  intros Hd c. subst c. unfold Calendar.makeDay.
  assert (Hdim : (28 <= Calendar.daysInMonth (y + (m + n) / 12) ((m + n) mod 12))%Z).
  { unfold Calendar.daysInMonth.
    repeat match goal with |- context [if ?c then _ else _] => destruct c end; lia. }
  destruct (Z.leb_spec d (Calendar.daysInMonth (y + (m + n) / 12) ((m + n) mod 12)));
    [|lia].
  simpl. pose proof (Z.div_mod (m + n) 12 ltac:(lia)).
  pose proof (Z.mod_pos_bound (m + n) 12 ltac:(lia)). lia.
Qed.



(** * Recording a penalty *)

Section PenaltyFacts.

Context {Date : Type} {D : DateApi Date}.
Variables (db : gmap string (Borrower Date)) (now : Date) (id : string).
Variables (pen : PenaltyBody) (upd : option (UpdateBody Date)).
Variable b : Borrower Date.
Hypothesis Hid : truthyStr id = true.
Hypothesis Hb : db !! id = Some b.


End PenaltyFacts.




(** * Editing the loan terms *)

Section UpdateFacts.

Context {Date : Type} {D : DateApi Date}.
Variables (db : gmap string (Borrower Date)) (now : Date) (id : string).
Variable upd : UpdateBody Date.
Variable b : Borrower Date.
Hypothesis Hid : truthyStr id = true.
Hypothesis Hb : db !! id = Some b.

Lemma handlePut_update :
  handlePut db now (Some id) (mkPutBody None None (Some upd))
  = (reply 200 "Borrower updated successfully.", <[id := applyUpdate b upd]> db).
Proof.
  unfold handlePut. rewrite Hid. simpl. unfold updateBranch. rewrite Hb. reflexivity.
Qed.

End UpdateFacts.

Lemma nullish_overwrite {A : Type} (new old : option A) (d : A) :
  nullish (overwrite new old) d = nullish new (nullish old d).
Proof. destruct new; reflexivity. Qed.







Lemma accruedInterest_nullish (L : float) (r t : option float) (ty : option string) :
  accruedInterest L (Some (nullish r 0)) (Some (nullish t 0))
    (Some (nullish ty "monthly"))
  = accruedInterest L r t ty.
Proof.
  unfold accruedInterest.
  destruct r as [r|], t as [t|]; simpl; try reflexivity.
  - destruct ty; reflexivity.
  - now rewrite andb_false_r.
Qed.


(** After an accepted payment the stored balance is the one a term edit
    would recompute, provided the principal is not one that [||] and [??]
    treat differently ([NaN] or [-0]). *)
Lemma applyPayment_recomputed {Date : Type} {D : DateApi Date}
    (b : Borrower Date) (u : bool) (r : PaymentRecord Date) :
  orOpt (loanAmount b) 0 = nullish (loanAmount b) 0 ->
  truthy (pay_amount r) = true ->
  remainingBalance (applyPayment b u r) = Some (recomputed (applyPayment b u r)).
Proof.
  intros HL Ha. rewrite applyPayment_balance, paymentBalance_spec. f_equal.
  unfold recomputed.
  destruct (applyPayment_terms b u r) as (-> & -> & -> & ->).
  destruct (applyPayment_penalties b u r) as [_ ->].
  rewrite applyPayment_payments, accruedInterest_nullish, <- HL.
  change (default [] (Some (default [] (payments b) ++ [r])%list))
    with (default [] (payments b) ++ [r])%list.
  unfold sumPayments at 2. rewrite fold_left_app. simpl.
  rewrite (orNum_truthy _ Ha). reflexivity.
Qed.



(** * Invariants of the collection *)

Section Invariants.

Context {Date : Type} {D : DateApi Date}.

Lemma sumPenalties_snoc (l : list (PenaltyRecord Date)) (r : PenaltyRecord Date) :
  sumPenalties (l ++ [r]) = sumPenalties l + orNum (pen_amount r) 0.
Proof. unfold sumPenalties. rewrite fold_left_app. reflexivity. Qed.

Lemma newBorrower_consistent (now : Date) (body : CreateBody Date) :
  penaltiesConsistent (newBorrower now body).
Proof. exists []. split; reflexivity. Qed.

Lemma applyPenalty_consistent (b : Borrower Date) (now : Date) (pen : PenaltyBody) :
  penaltiesConsistent (applyPenalty b (penaltyRecordOf now pen)).
Proof.
  exists (default [] (penalties b) ++ [penaltyRecordOf now pen])%list.
  split; [reflexivity|]. unfold applyPenalty, newTotalPenaltiesOf. simpl.
  rewrite sumPenalties_snoc. simpl. rewrite orNum_idem. reflexivity.
Qed.

Lemma applyPayment_consistent (b : Borrower Date) (u : bool) (r : PaymentRecord Date) :
  penaltiesConsistent b -> penaltiesConsistent (applyPayment b u r).
Proof.
  unfold penaltiesConsistent.
  destruct (applyPayment_penalties b u r) as [-> ->]. auto.
Qed.

Lemma applyUpdate_consistent (b : Borrower Date) (upd : UpdateBody Date) :
  penaltiesConsistent b -> penaltiesConsistent (applyUpdate b upd).
Proof. unfold penaltiesConsistent. simpl. auto. Qed.

(** A property of documents that every handler establishes or keeps holds
    throughout the collections the server can reach. *)
Lemma reachable_all (P : Borrower Date -> Prop) :
  (forall now body, P (newBorrower now body)) ->
  (forall b u r, P b -> P (applyPayment b u r)) ->
  (forall b now pen, P b -> P (applyPenalty b (penaltyRecordOf now pen))) ->
  (forall b upd, P b -> P (applyUpdate b upd)) ->
  forall db, reachable db -> forall id b, db !! id = Some b -> P b.
Proof.
  intros Hnew Hpay Hpen Hupd db R. induction R as [|db req R IH].
  - intros id b H. rewrite lookup_empty in H. discriminate.
  - assert (Hins : forall k b', P b' ->
              forall id b, <[k := b']> db !! id = Some b -> P b).
    { intros k b' Pb' id b. rewrite lookup_insert. case_decide.
      - intros [= <-]. exact Pb'.
      - apply IH. }
    destruct req as [now newId body | now id body | id]; simpl.
    + unfold handlePost.
      destruct (negb _ || negb _ || negb _); simpl; [exact IH|].
      apply Hins, Hnew.
    + unfold handlePut. destruct id as [id|]; [|exact IH].
      destruct (truthyStr id); [|exact IH].
      destruct (body_payment body) as [pay|].
      * unfold paymentBranch. destruct (db !! id) as [b0|] eqn:E; [|exact IH].
        destruct (validatePayment _); simpl; [exact IH|].
        apply Hins, Hpay, (IH _ _ E).
      * destruct (body_penalty body) as [pen|].
        -- unfold penaltyBranch. destruct (db !! id) as [b0|] eqn:E; [|exact IH].
           simpl. apply Hins, Hpen, (IH _ _ E).
        -- destruct (body_borrowerUpdate body) as [upd|]; [|exact IH].
           unfold updateBranch. destruct (db !! id) as [b0|] eqn:E; [|exact IH].
           simpl. apply Hins, Hupd, (IH _ _ E).
    + unfold handleDelete. destruct id as [id|]; [|exact IH].
      destruct (truthyStr id); [|exact IH].
      destruct (db !! id) as [b0|] eqn:E; [|exact IH]. simpl.
      intros id' b. rewrite lookup_delete. case_decide; [discriminate|apply IH].
Qed.

End Invariants.

Lemma run_reachable (db : gmap string (Borrower Calendar.date))
    (reqs : list (Request Calendar.date)) :
  reachable db -> reachable (Examples.run db reqs).
Proof.
  revert db. induction reqs as [|req reqs IH]; intros db R; simpl; [exact R|].
  apply IH, reach_step, R.
Qed.

(** C9: in every collection the server can reach, each loan's
    [totalPenalties] is the sum of the amounts of its penalty list: a new
    loan has the total 0 and the empty list, a penalty sets the total to
    the sum of the existing list plus the appended amount, and payments and
    term edits change neither the total nor the list. *)
Theorem totalPenalties_is_list_sum :
  forall (Date : Type) (D : DateApi Date),
    (forall (db : gmap string (Borrower Date)) (id : string) (b : Borrower Date),
        reachable db -> db !! id = Some b ->
        exists l : list (PenaltyRecord Date),
          penalties b = Some l /\ totalPenalties b = Some (sumPenalties l))
    /\ (forall (now : Date) (body : CreateBody Date),
          penalties (newBorrower now body) = Some []
          /\ totalPenalties (newBorrower now body) = Some 0)
    /\ (forall (b : Borrower Date) (now : Date) (pen : PenaltyBody),
          let r := penaltyRecordOf now pen in
          let l := default [] (penalties b) in
          penalties (applyPenalty b r) = Some (l ++ [r])%list
          /\ totalPenalties (applyPenalty b r)
             = Some (sumPenalties l + pen_amount r)
          /\ sumPenalties (l ++ [r]) = sumPenalties l + pen_amount r)
    /\ (forall (b : Borrower Date) (u : bool) (r : PaymentRecord Date),
          penalties (applyPayment b u r) = penalties b
          /\ totalPenalties (applyPayment b u r) = totalPenalties b)
    /\ (forall (b : Borrower Date) (upd : UpdateBody Date),
          penalties (applyUpdate b upd) = penalties b
          /\ totalPenalties (applyUpdate b upd) = totalPenalties b).
Proof.
  intros Date D. split; [|split; [|split; [|split]]].
  - intros db id b R. revert id b.
    apply (reachable_all penaltiesConsistent); auto using
      newBorrower_consistent, applyPayment_consistent, applyUpdate_consistent.
    intros b now pen _. apply applyPenalty_consistent.
  - intros now body. split; reflexivity.
  - intros b now pen r l. split; [reflexivity|]. split; [reflexivity|].
    rewrite sumPenalties_snoc. subst r. simpl. rewrite orNum_idem. reflexivity.
  - intros b u r. apply applyPayment_penalties.
  - intros b upd. split; reflexivity.
Qed.

Lemma totalPenalties_is_list_sum_witness :
  exists l : list (PenaltyRecord Calendar.date),
    (b ← Examples.dbPenalties !! "a1"; penalties b) = Some l
    /\ (b ← Examples.dbPenalties !! "a1"; totalPenalties b)
       = Some (sumPenalties l).
Proof.
  assert (R : reachable Examples.dbPenalties).
  { repeat apply run_reachable. apply reach_empty. }
  destruct (proj1 (totalPenalties_is_list_sum _ Calendar.api) _ "a1" _ R eq_refl)
    as (l & Hl & Ht).
  exists l. split; [exact Hl | exact Ht].
Defined.

(** * Zero interest on the mutation paths *)

Lemma zero_falsy x : (x =? 0) = true -> truthy x = false.
Proof.
  intros H. unfold truthy. change (is_zero x) with (x =? 0). rewrite H.
  now rewrite orb_true_r.
Qed.

Lemma accruedInterest_falsy (L : float) (r t : option float) (ty : option string) :
  truthyOpt r = false \/ truthyOpt t = false -> accruedInterest L r t ty = 0.
Proof.
  unfold accruedInterest. destruct r as [r|], t as [t|]; simpl; auto.
  intros [-> | ->]; [reflexivity | now rewrite andb_false_r].
Qed.

Lemma orOpt_not_neg_zero (o : option float) : Prim2SF (orOpt o 0) <> S754_zero true.
Proof. destruct o; simpl; [apply orNum_not_neg_zero | discriminate]. Qed.

Lemma add_zero_then x p : Prim2SF p <> S754_zero true -> x + 0 + p = x + p.
Proof.
  intros Hp. destruct (Prim2SF x) as [[|]| | |] eqn:E.
  - apply zero_cases in E. subst x. apply add_neg_zero_l, Hp.
  - rewrite add_zero_r; [reflexivity | congruence].
  - rewrite add_zero_r; [reflexivity | congruence].
  - rewrite add_zero_r; [reflexivity | congruence].
  - rewrite add_zero_r; [reflexivity | congruence].
Qed.

Lemma isZero_falsy o : isZero o -> truthyOpt o = false.
Proof. intros (x & -> & H). apply zero_falsy, H. Qed.

(** C10: on the payment, penalty and term-edit paths the interest block
    is skipped when the interest rate or the term is zero: the interest is
    0 and the balance stored is
    [max(0, principal + totalPenalties - totalPayments)]. The block yields
    either 0 or the flat interest, never the principal, whatever the sign
    of the principal and of the term. *)
Theorem zero_rate_or_term_no_interest :
  forall (Date : Type) (b : Borrower Date),
    (isZero (interestRate b) \/ isZero (term b) ->
     accruedInterest (orOpt (loanAmount b) 0) (interestRate b) (term b)
       (interestType b) = 0
     /\ (forall a : float,
           paymentBalance b a
           = Math_max 0 (orOpt (loanAmount b) 0 + orOpt (totalPenalties b) 0
                         - (sumPayments (default [] (payments b)) + a)))
     /\ (forall a : float,
           Math_max (penaltyBalance b a) 0
           = Math_max 0 (orOpt (loanAmount b) 0
                         + (sumPenalties (default [] (penalties b)) + a)
                         - sumPayments (default [] (payments b)))))
    /\ (forall upd : UpdateBody Date,
          let b' := applyUpdate b upd in
          isZero (Some (nullish (interestRate b') 0))
          \/ isZero (Some (nullish (term b') 0)) ->
          updateBalance b upd
          = Math_max 0 (nullish (loanAmount b') 0 + orOpt (totalPenalties b) 0
                        - sumPayments (default [] (payments b))))
    /\ (forall (L r t : float) (ty : option string),
          accruedInterest L (Some r) (Some t) ty
          = if truthy r && truthy t
            then L * ((if isAnnually ty then r / 12 else r) / 100) * t
            else 0).
Proof.
  intros Date b. split; [|split].
  - intros H.
    assert (H0 : accruedInterest (orOpt (loanAmount b) 0) (interestRate b) (term b)
                   (interestType b) = 0).
    { apply accruedInterest_falsy. destruct H as [H | H]; [left | right];
        apply isZero_falsy, H. }
    split; [exact H0|]. split; intros a.
    + unfold paymentBalance. rewrite H0, add_zero_r by apply orOpt_not_neg_zero.
      apply Math_max_zero_comm.
    + unfold penaltyBalance, newTotalPenaltiesOf.
      rewrite H0, add_zero_r by apply orOpt_not_neg_zero.
      apply Math_max_zero_comm.
  - intros upd b' H. unfold updateBalance.
    assert (Hm : forall (A : Type) (u o : option A) (d : A),
               nullish u (nullish o d) = nullish (overwrite u o) d)
      by (intros A u o d; symmetry; apply nullish_overwrite).
    rewrite accruedInterest_falsy.
    + rewrite add_zero_then by apply orOpt_not_neg_zero.
      rewrite Math_max_zero_comm, Hm. reflexivity.
    + rewrite !Hm. destruct H as [H | H]; [left | right]; apply isZero_falsy, H.
  - intros L r t ty. unfold accruedInterest.
    destruct (truthy r && truthy t); reflexivity.
Qed.

Lemma zero_rate_or_term_no_interest_witness :
  (b ← Examples.db1000 !! "a1"; Some (paymentBalance b 250))
  = Some (Math_max 0 (1000 + 0 - (0 + 250))).
Proof.
  exact (f_equal Some
           (proj1 (proj2 (proj1 (zero_rate_or_term_no_interest Calendar.date
              (newBorrower Examples.today
                 (Examples.createBody 1000 0 0 "monthly" 200)))
              (or_introl (ex_intro _ 0 (conj eq_refl eq_refl))))) 250)).
Defined.

(** * The balance is never negative *)

Lemma Math_max_zero_nonNegativeOrNaN x : nonNegativeOrNaN (Math_max x 0).
Proof.
  unfold nonNegativeOrNaN. rewrite Math_max_zero_nan. apply Math_max_zero_nonneg.
Qed.

Lemma calculateInitialBalance_notBelowZero (L r t : float) (ty : string) :
  (0 <=? L) = true -> (0 <=? r) = true -> (0 <=? t) = true ->
  notBelowZero (Prim2SF (calculateInitialBalance L r t ty)).
Proof.
  intros HL Hr Ht.
  apply leb_zero_shape in HL, Hr, Ht. destruct HL as [HL _], Hr as [Hr _], Ht as [Ht _].
  unfold calculateInitialBalance.
  destruct ((L <=? 0) || (t <=? 0)); [exact HL|].
  rewrite add_spec, !mul_spec.
  apply SFadd_notBelowZero; [exact HL|].
  apply SFmul_notBelowZero; [|exact Ht].
  apply SFmul_notBelowZero; [exact HL|].
  rewrite div_spec. change (Prim2SF 100) with (S754_finite false 7036874417766400 (-46)).
  apply SFdiv_notBelowZero.
  destruct (String.eqb ty "annually"); [|exact Hr].
  rewrite div_spec. change (Prim2SF 12) with (S754_finite false 6755399441055744 (-49)).
  apply SFdiv_notBelowZero, Hr.
Qed.

(** C1, as stated, fails: a loan of 1000 at 5% over 12 months receives a
    penalty of [Infinity] and then one of [-Infinity] (the numbers that
    the JSON literals [1e999] and [-1e999] denote); both are accepted, the
    penalty total becomes [NaN], [Math.max(NaN, 0)] is [NaN], and the
    balance stored is not [>= 0]. *)
Lemma balance_can_be_NaN :
  (b ← Examples.dbInterest !! "a1"; Some (loanAmount b, term b, interestRate b))
  = Some (Some 1000, Some 12, Some 5)
  /\ status Examples.afterInfinity.1 = 200%Z
  /\ status Examples.afterBoth.1 = 200%Z
  /\ Examples.balanceOf Examples.afterBoth.2 "a1" = Some nan
  /\ ~ (exists rb, Examples.balanceOf Examples.afterBoth.2 "a1" = Some rb
                   /\ (0 <=? rb) = true).
Proof.
  repeat split; try reflexivity.
  intros (rb & H & Hle). vm_compute in H. injection H as <-. discriminate Hle.
Qed.

Lemma clamped_sum_nonneg (L I P T : float) :
  is_finite L = true -> is_nan I = false ->
  is_finite P = true -> is_finite T = true ->
  (0 <=? Math_max (L + I + P - T) 0) = true.
Proof.
  intros HL HI HP HT. apply Math_max_zero_nonneg, ledger_sum_not_nan; assumption.
Qed.

(** C1 (amended): the balance stored by an accepted operation is
    non-negative unless it is NaN. A new loan whose principal, term and
    interest rate are non-negative gets such a balance; a payment, a penalty
    and an edit of the terms store [Math.max(sum, 0)], which is NaN exactly
    when the sum [principal + totalInterest + totalPenalties - totalPayments]
    is NaN and >= 0 otherwise; an edit that supplies no term keeps the
    balance it found. The sum is a number, and the balance stored >= 0,
    whenever the principal and the two totals are finite and the interest
    is a number. *)
Theorem balance_never_negative :
  forall (Date : Type) (D : DateApi Date) (db : gmap string (Borrower Date)),
    (forall (now : Date) (newId : string) (body : CreateBody Date)
            (L r t : float),
        let result := handlePost db now newId body in
        status result.1 = 201%Z ->
        orNum (cb_loanAmount body) 0 = L -> (0 <=? L) = true ->
        orNum (cb_interestRate body) 0 = r -> (0 <=? r) = true ->
        orNum (cb_term body) 0 = t -> (0 <=? t) = true ->
        exists (b : Borrower Date) (rb : float),
          result.2 !! newId = Some b
          /\ loanAmount b = Some L /\ interestRate b = Some r /\ term b = Some t
          /\ remainingBalance b = Some rb /\ nonNegativeOrNaN rb)
    /\ (forall (now : Date) (id : string) (body : PutBody Date)
               (b : Borrower Date),
          let result := handlePut db now (Some id) body in
          db !! id = Some b -> status result.1 = 200%Z ->
          (forall rb, remainingBalance b = Some rb -> nonNegativeOrNaN rb) ->
          exists b' : Borrower Date,
            result.2 !! id = Some b'
            /\ (forall rb', remainingBalance b' = Some rb' -> nonNegativeOrNaN rb'))
    /\ (forall s : float,
          is_nan (Math_max s 0) = is_nan s
          /\ (is_nan s = false -> (0 <=? Math_max s 0) = true))
    /\ (forall (b : Borrower Date) (a : float),
          let L := orOpt (loanAmount b) 0 in
          let I := accruedInterest L (interestRate b) (term b) (interestType b) in
          is_finite L = true -> is_nan I = false ->
          (is_finite (orOpt (totalPenalties b) 0) = true ->
           is_finite (sumPayments (default [] (payments b)) + a) = true ->
           (0 <=? paymentBalance b a) = true)
          /\ (is_finite (newTotalPenaltiesOf b a) = true ->
              is_finite (sumPayments (default [] (payments b))) = true ->
              (0 <=? Math_max (penaltyBalance b a) 0) = true))
    /\ (forall (b : Borrower Date) (upd : UpdateBody Date),
          let b' := applyUpdate b upd in
          let L := nullish (loanAmount b') 0 in
          let I := accruedInterest L (Some (nullish (interestRate b') 0))
                     (Some (nullish (term b') 0))
                     (Some (nullish (interestType b') "monthly")) in
          is_finite L = true -> is_nan I = false ->
          is_finite (orOpt (totalPenalties b) 0) = true ->
          is_finite (sumPayments (default [] (payments b))) = true ->
          (0 <=? updateBalance b upd) = true).
Proof.
  intros Date D db. split; [|split; [|split; [|split]]].
  - intros now newId body L r t result. subst result. unfold handlePost.
    destruct (negb _ || negb _ || negb _); simpl; [discriminate|].
    intros _ HL HL0 Hr Hr0 Ht Ht0.
    eexists _, _. rewrite lookup_insert_eq. split; [reflexivity|]. simpl.
    rewrite HL, Hr, Ht. repeat (split; [reflexivity|]).
    apply notBelowZero_leb, calculateInitialBalance_notBelowZero; assumption.
  - intros now id body b result Hb. subst result. unfold handlePut.
    destruct (truthyStr id); [|discriminate].
    destruct (body_payment body) as [pay|].
    { unfold paymentBranch. rewrite Hb.
      destruct (validatePayment _); simpl; [discriminate|]. intros _ _.
      eexists. rewrite lookup_insert_eq. split; [reflexivity|].
      intros rb'. rewrite applyPayment_balance. intros [= <-].
      apply Math_max_zero_nonNegativeOrNaN. }
    destruct (body_penalty body) as [pen|].
    { unfold penaltyBranch. rewrite Hb. simpl. intros _ _.
      eexists. rewrite lookup_insert_eq. split; [reflexivity|].
      intros rb'. simpl. intros [= <-]. apply Math_max_zero_nonNegativeOrNaN. }
    destruct (body_borrowerUpdate body) as [upd|]; [|discriminate].
    unfold updateBranch. rewrite Hb. simpl. intros _ Hold.
    eexists. rewrite lookup_insert_eq. split; [reflexivity|].
    intros rb'. unfold applyUpdate, applySet, updateFieldsOf. simpl.
    destruct (termsSupplied upd); simpl.
    + intros [= <-]. apply Math_max_zero_nonNegativeOrNaN.
    + apply Hold.
  - intros s. split; [apply Math_max_zero_nan | apply Math_max_zero_nonneg].
  - intros b a L I HL HI. split; intros HP HT.
    + apply clamped_sum_nonneg; assumption.
    + apply clamped_sum_nonneg; assumption.
  - intros b upd b' L I HL HI HP HT. unfold updateBalance.
    assert (Hm : forall (A : Type) (u o : option A) (d : A),
               nullish u (nullish o d) = nullish (overwrite u o) d)
      by (intros A u o d; symmetry; apply nullish_overwrite).
    rewrite !Hm. apply clamped_sum_nonneg; assumption.
Qed.

Lemma balance_never_negative_witness :
  exists (b : Borrower Calendar.date) (rb : float),
    Examples.dbInterest !! "a1" = Some b
    /\ remainingBalance b = Some rb /\ nonNegativeOrNaN rb.
Proof.
  destruct (proj1 (balance_never_negative _ Calendar.api ∅) Examples.today "a1"
              (Examples.createBody 1000 5 12 "monthly" 200) 1000 5 12
              eq_refl eq_refl eq_refl eq_refl eq_refl eq_refl eq_refl)
    as (b & rb & Hl & _ & _ & _ & Hr & Hn).
  exists b, rb. split; [exact Hl|]. split; [exact Hr | exact Hn].
Defined.

(** * The handlers as a whole

    Properties of [app.put], [app.delete] and [app.post] beyond the
    balance computations: which requests are accepted, what a rejected
    request leaves behind, and which documents a request can touch. *)

Section HandlerFacts.

Context {Date : Type} {D : DateApi Date}.


End HandlerFacts.



Section PutFrame.

Context {Date : Type} {D : DateApi Date}.
Variables (db : gmap string (Borrower Date)) (now : Date).
Variables (id : option string) (body : PutBody Date).

(** The collection after a PUT is the old one, or the old one with the
    addressed document replaced. *)
Lemma handlePut_shape :
  (handlePut db now id body).2 = db
  \/ exists id' b b', id = Some id' /\ db !! id' = Some b
                      /\ (handlePut db now id body).2 = <[id' := b']> db.
Proof.
  unfold handlePut. destruct id as [id'|]; [|auto].
  destruct (truthyStr id'); [|auto].
  destruct (body_payment body) as [pay|];
    [|destruct (body_penalty body) as [pen|];
      [|destruct (body_borrowerUpdate body) as [upd|]; [|auto]]];
    unfold paymentBranch, penaltyBranch, updateBranch;
    destruct (db !! id') as [b|] eqn:Hb; auto.
  - destruct (validatePayment _); simpl; eauto 10.
  - simpl; eauto 10.
  - simpl; eauto 10.
Qed.

Lemma put_frame_dom :
  (forall k : string,
      id <> Some k -> (handlePut db now id body).2 !! k = db !! k)
  /\ dom (handlePut db now id body).2 = dom db.
Proof.
  destruct handlePut_shape as [-> | (id' & b & b' & -> & Hb & ->)].
  - auto.
  - split.
    + intros k Hk. apply lookup_insert_ne. congruence.
    + apply dom_insert_lookup_L. rewrite Hb. eauto.
Qed.

End PutFrame.

(** X2: a PUT touches no document but the one it addresses, and it neither
    creates nor removes a document: the set of ids is the same afterwards. *)
Theorem put_touches_one_document :
  forall (Date : Type) (D : DateApi Date) (db : gmap string (Borrower Date))
         (now : Date) (id : option string) (body : PutBody Date),
    (forall k : string,
        id <> Some k -> (handlePut db now id body).2 !! k = db !! k)
    /\ dom (handlePut db now id body).2 = dom db.
Proof.
  intros Date D db now id body. apply put_frame_dom.
Qed.

Lemma put_touches_one_document_witness :
  (handlePut Examples.owes1000 Examples.today (Some "a1")
     (Examples.payment 10 false)).2 !! "b2" = Examples.owes1000 !! "b2".
Proof.
  apply (proj1 (put_touches_one_document _ Calendar.api Examples.owes1000
                  Examples.today (Some "a1") (Examples.payment 10 false))).
  discriminate.
Defined.

(** X3: [DELETE /api/loans] answers 200 exactly when the id is given and a
    document has it; then that document is gone and every other document
    is as before. Otherwise (400 without id, 404 without document) the
    collection is unchanged. After a successful delete, deleting again and
    any payment, penalty or update for that id answer 404. *)
Theorem delete_effect :
  forall (Date : Type) (D : DateApi Date) (db : gmap string (Borrower Date))
         (id : option string),
    let result := handleDelete db id in
    (status result.1 = 200%Z <->
     exists id', id = Some id' /\ truthyStr id' = true /\ is_Some (db !! id'))
    /\ (status result.1 <> 200%Z -> result.2 = db)
    /\ (forall id', id = Some id' -> status result.1 = 200%Z ->
        result.2 !! id' = None
        /\ (forall k, k <> id' -> result.2 !! k = db !! k)
        /\ status (handleDelete result.2 id).1 = 404%Z
        /\ (forall (now : Date) (body : PutBody Date),
              defined (body_payment body) || defined (body_penalty body)
              || defined (body_borrowerUpdate body) = true ->
              status (handlePut result.2 now id body).1 = 404%Z)).
Proof.
  intros Date D db id result. subst result.
  destruct id as [id|]; [destruct (truthyStr id) eqn:Hid|].
  2,3: unfold handleDelete; rewrite ?Hid; simpl; repeat split; auto;
       try discriminate; intros (id' & ? & ?); intuition congruence.
  destruct (db !! id) as [b|] eqn:Hb.
  - assert (H1 : handleDelete db (Some id)
                 = (reply 200 "Borrower deleted successfully.", delete id db))
      by (unfold handleDelete; rewrite Hid, Hb; reflexivity).
    assert (H2 : handleDelete (delete id db) (Some id)
                 = (reply 404 "Borrower not found.", delete id db))
      by (unfold handleDelete; rewrite Hid, lookup_delete_eq; reflexivity).
    rewrite H1. cbn [fst snd status reply].
    split; [split; [intros _; exists id; eauto | reflexivity]|].
    split; [congruence|]. intros id' [= <-] _.
    split; [apply lookup_delete_eq|].
    split; [intros k Hk; apply lookup_delete_ne; congruence|].
    split; [rewrite H2; reflexivity|].
    intros now body Hkey. unfold handlePut. rewrite Hid.
    unfold paymentBranch, penaltyBranch, updateBranch.
    rewrite lookup_delete_eq.
    destruct (body_payment body), (body_penalty body), (body_borrowerUpdate body);
      try reflexivity; discriminate.
  - assert (H1 : handleDelete db (Some id)
                 = (reply 404 "Borrower not found.", db))
      by (unfold handleDelete; rewrite Hid, Hb; reflexivity).
    rewrite H1. cbn [fst snd status reply].
    split; [split; [discriminate|]|].
    + intros (id' & [= <-] & _ & [b Hs]). congruence.
    + split; [reflexivity|]. discriminate.
Qed.

Lemma delete_effect_witness :
  (handleDelete Examples.db1000 (Some "a1")).2 !! "a1" = None.
Proof.
  exact (proj1 (proj2 (proj2 (delete_effect _ Calendar.api Examples.db1000
                                (Some "a1"))) "a1" eq_refl eq_refl)).
Defined.

(** X4: creating a loan under an id that is not in use and deleting it
    again gives back the collection as it was. *)
Theorem post_then_delete :
  forall (Date : Type) (D : DateApi Date) (db : gmap string (Borrower Date))
         (now : Date) (newId : string) (body : CreateBody Date),
    db !! newId = None -> truthyStr newId = true ->
    (handleDelete (handlePost db now newId body).2 (Some newId)).2 = db.
Proof.
  intros Date D db now newId body Hn Hid. unfold handlePost.
  destruct (negb _ || negb _ || negb _); simpl.
  - unfold handleDelete. rewrite Hid, Hn. reflexivity.
  - unfold handleDelete. rewrite Hid, lookup_insert_eq. simpl.
    apply delete_insert_id, Hn.
Qed.

Lemma post_then_delete_witness :
  (handleDelete (handlePost Examples.db1000 Examples.today "c3"
                   (Examples.createBody 700 2 6 "monthly" 100)).2
     (Some "c3")).2 = Examples.db1000.
Proof.
  apply (post_then_delete _ Calendar.api); reflexivity.
Defined.

(** X5: [POST /api/loans] answers 400, and stores nothing, exactly when
    the name, the contact or the address is missing or empty. Otherwise it
    answers 201 with the new document, stores it under the new id and
    leaves every other document alone. In the new document a numeric term
    that was missing or not a number is 0: the stored principal, term,
    rate and installment are never NaN and never [-0]. *)
Theorem post_effect :
  forall (Date : Type) (D : DateApi Date) (db : gmap string (Borrower Date))
         (now : Date) (newId : string) (body : CreateBody Date),
    let result := handlePost db now newId body in
    let complete := truthyStrOpt (cb_name body) && truthyStrOpt (cb_contact body)
                    && truthyStrOpt (cb_address body) in
    (complete = false -> status result.1 = 400%Z /\ result.2 = db)
    /\ (complete = true ->
        exists b : Borrower Date,
          status result.1 = 201%Z /\ res_created result.1 = Some b
          /\ result.2 !! newId = Some b
          /\ (forall k, k <> newId -> result.2 !! k = db !! k)
          /\ Some (name b) = cb_name body /\ Some (contact b) = cb_contact body
          /\ Some (address b) = cb_address body
          /\ Forall (fun field : option float =>
                       exists x, field = Some x /\ is_nan x = false
                                 /\ Prim2SF x <> S754_zero true)
               [loanAmount b; term b; interestRate b; monthlyPayment b]).
Proof.
  intros Date D db now newId body result complete. subst result complete.
  unfold handlePost.
  destruct (truthyStrOpt (cb_name body)) eqn:Tn;
    [|split; [auto | discriminate]].
  destruct (truthyStrOpt (cb_contact body)) eqn:Tc;
    [|split; [auto | discriminate]].
  destruct (truthyStrOpt (cb_address body)) eqn:Ta;
    [|split; [auto | discriminate]].
  simpl. split; [discriminate|]. intros _.
  destruct (cb_name body) as [n|] eqn:Hn; [|discriminate].
  destruct (cb_contact body) as [c|] eqn:Hc; [|discriminate].
  destruct (cb_address body) as [a|] eqn:Ha; [|discriminate].
  assert (Hnum : forall raw, exists x,
             Some (orNum raw 0) = Some x /\ is_nan x = false
             /\ Prim2SF x <> S754_zero true).
  { intros raw. exists (orNum raw 0). split; [reflexivity|].
    split; [|apply orNum_not_neg_zero].
    unfold orNum. destruct (truthy raw) eqn:T; [|reflexivity].
    apply truthy_not_nan, T. }
  eexists. split; [reflexivity|]. split; [reflexivity|].
  split; [apply lookup_insert_eq|].
  split; [intros k Hk; apply lookup_insert_ne; congruence|].
  simpl. rewrite Hn, Hc, Ha.
  repeat (split; [reflexivity|]).
  repeat (apply Forall_cons_2; [apply Hnum|]). apply Forall_nil_2.
Qed.

Lemma post_effect_witness :
  status (handlePost Examples.db1000 Examples.today "c3"
            (mkCreateBody (Some "Ada") (Some "") (Some "1 Main St")
               100 1 1 None None 10)).1 = 400%Z
  /\ (handlePost Examples.db1000 Examples.today "c3"
        (mkCreateBody (Some "Ada") (Some "") (Some "1 Main St")
           100 1 1 None None 10)).2 = Examples.db1000.
Proof.
  exact (proj1 (post_effect _ Calendar.api Examples.db1000 Examples.today "c3"
                  (mkCreateBody (Some "Ada") (Some "") (Some "1 Main St")
                     100 1 1 None None 10)) eq_refl).
Defined.

Section DocumentSteps.

Context {Date : Type} {D : DateApi Date}.

(** What a PUT can do to one stored document: nothing, an accepted
    payment, a penalty, or an edit. *)
Lemma handlePut_document (db : gmap string (Borrower Date)) (now : Date)
    (id : option string) (body : PutBody Date) (k : string)
    (b b' : Borrower Date) :
  db !! k = Some b -> (handlePut db now id body).2 !! k = Some b' ->
  b' = b
  \/ (exists pay : PaymentBody Date,
         body_payment body = Some pay
         /\ validatePayment (pay_amount (paymentRecordOf now pay)) = None
         /\ b' = applyPayment b (pb_updateDueDate pay) (paymentRecordOf now pay))
  \/ (exists pen : PenaltyBody,
         body_payment body = None /\ body_penalty body = Some pen
         /\ b' = applyPenalty b (penaltyRecordOf now pen))
  \/ (exists upd : UpdateBody Date,
         body_payment body = None /\ body_penalty body = None
         /\ body_borrowerUpdate body = Some upd /\ b' = applyUpdate b upd).
Proof.
  intros Hb.
  assert (Hsame : forall P : Prop, db !! k = Some b' -> b' = b \/ P)
    by (left; congruence).
  unfold handlePut. destruct id as [id'|]; [|apply Hsame].
  destruct (truthyStr id'); [|apply Hsame].
  destruct (body_payment body) as [pay|];
    [|destruct (body_penalty body) as [pen|];
      [|destruct (body_borrowerUpdate body) as [upd|]; [|apply Hsame]]];
    unfold paymentBranch, penaltyBranch, updateBranch;
    destruct (db !! id') as [b0|] eqn:Hb0; try apply Hsame.
  - destruct (validatePayment _) eqn:V; [apply Hsame|].
    cbn [snd]. rewrite lookup_insert. case_decide as Hk; [|apply Hsame].
    subst id'. assert (b0 = b) as -> by congruence. intros [= <-].
    right; left. exists pay. auto.
  - cbn [snd]. rewrite lookup_insert. case_decide as Hk; [|apply Hsame].
    subst id'. assert (b0 = b) as -> by congruence. intros [= <-].
    right; right; left. exists pen. auto.
  - cbn [snd]. rewrite lookup_insert. case_decide as Hk; [|apply Hsame].
    subst id'. assert (b0 = b) as -> by congruence. intros [= <-].
    right; right; right. exists upd. auto.
Qed.

End DocumentSteps.

(** X6: the payment and penalty histories only grow. Whatever a PUT does
    to a document, its old payment list is a prefix of the new one, and so
    is its old penalty list; together they grow by at most one record, and
    the creation date is kept. *)
Theorem history_is_append_only :
  forall (Date : Type) (D : DateApi Date) (db : gmap string (Borrower Date))
         (now : Date) (id : option string) (body : PutBody Date)
         (k : string) (b b' : Borrower Date),
    db !! k = Some b -> (handlePut db now id body).2 !! k = Some b' ->
    default [] (payments b) `prefix_of` default [] (payments b')
    /\ default [] (penalties b) `prefix_of` default [] (penalties b')
    /\ (length (default [] (payments b')) + length (default [] (penalties b'))
        <= S (length (default [] (payments b))
              + length (default [] (penalties b))))%nat
    /\ createdAt b' = createdAt b.
Proof.
  intros Date D db now id body k b b' Hb Hb'.
  destruct (handlePut_document db now id body k b b' Hb Hb')
    as [-> | [(pay & _ & _ & ->) | [(pen & _ & _ & ->) | (upd & _ & _ & _ & ->)]]].
  - repeat split; auto; lia.
  - rewrite applyPayment_payments.
    destruct (applyPayment_penalties b (pb_updateDueDate pay)
                (paymentRecordOf now pay)) as [-> _].
    split; [apply prefix_app_r; reflexivity|]. split; [reflexivity|].
    split; [simpl; rewrite length_app; simpl; lia|].
    unfold applyPayment. destruct (advanceOf _ _ _); reflexivity.
  - unfold applyPenalty. simpl.
    split; [reflexivity|]. split; [apply prefix_app_r; reflexivity|].
    split; [rewrite length_app; simpl; lia | reflexivity].
  - simpl. repeat split; auto; lia.
Qed.

Lemma history_is_append_only_witness :
  default [] (b ← Examples.db1000 !! "a1"; payments b) `prefix_of`
  default [] (b ← Examples.paid1000 !! "a1"; payments b).
Proof.
  destruct (Examples.db1000 !! "a1") as [b|] eqn:Hb;
    [|vm_compute in Hb; discriminate].
  destruct (Examples.paid1000 !! "a1") as [b'|] eqn:Hb';
    [|vm_compute in Hb'; discriminate].
  exact (proj1 (history_is_append_only _ Calendar.api Examples.db1000 Examples.today
                  (Some "a1") (Examples.payment 1000 false) "a1" b b' Hb Hb')).
Defined.

Section BalanceCache.

Context {Date : Type} {D : DateApi Date}.
Variables (b : Borrower Date) (v : option float).

Lemma applyPayment_withBalance u r :
  applyPayment (withBalance v b) u r = applyPayment b u r.
Proof. reflexivity. Qed.

Lemma applyPenalty_withBalance r :
  applyPenalty (withBalance v b) r = applyPenalty b r.
Proof. reflexivity. Qed.

Lemma applyUpdate_withBalance upd :
  termsSupplied upd = true ->
  applyUpdate (withBalance v b) upd = applyUpdate b upd.
Proof.
  intros H. unfold applyUpdate, applySet, updateFieldsOf. rewrite H. reflexivity.
Qed.

End BalanceCache.

(** X7: the stored balance is a cache that is never read. Whatever value
    [remainingBalance] holds in the database (a stale one, or none), an
    accepted payment, a penalty and an edit that supplies a loan term give
    the same answer and leave the same collection as if the stored balance
    had been right. *)
Theorem stored_balance_is_never_read :
  forall (Date : Type) (D : DateApi Date) (db : gmap string (Borrower Date))
         (now : Date) (id : string) (body : PutBody Date)
         (b : Borrower Date) (stale : option float),
    truthyStr id = true -> db !! id = Some b -> writesBalance body = true ->
    handlePut (<[id := withBalance stale b]> db) now (Some id) body
    = handlePut db now (Some id) body.
Proof.
  intros Date D db now id body b stale Hid Hb Hw.
  unfold handlePut, writesBalance in *. rewrite Hid.
  destruct (body_payment body) as [pay|];
    [|destruct (body_penalty body) as [pen|];
      [|destruct (body_borrowerUpdate body) as [upd|]; [|discriminate]]];
    unfold paymentBranch, penaltyBranch, updateBranch;
    rewrite lookup_insert_eq, Hb.
  - change (pay_amount (paymentRecordOf now pay)) with (orNum (pb_amount pay) 0).
    rewrite (proj2 (validatePayment_accepts _) Hw), insert_insert_eq.
    reflexivity.
  - rewrite insert_insert_eq. reflexivity.
  - rewrite insert_insert_eq, (applyUpdate_withBalance b stale upd Hw). reflexivity.
Qed.

Lemma stored_balance_is_never_read_witness :
  handlePut (<["a1" := withBalance (Some 123)
                         (newBorrower Examples.today
                            (Examples.createBody 1000 0 0 "monthly" 200))]>
               Examples.db1000)
    Examples.today (Some "a1") (Examples.payment 1000 false)
  = handlePut Examples.db1000 Examples.today (Some "a1")
      (Examples.payment 1000 false).
Proof.
  apply (stored_balance_is_never_read _ Calendar.api); reflexivity.
Defined.

Section Commute.

Context {Date : Type} {D : DateApi Date}.
Variables (b : Borrower Date) (u : bool) (r : PaymentRecord Date)
          (q : PenaltyRecord Date).




End Commute.



Lemma not_positive_rejected (raw : float) :
  (0 <? raw) = false ->
  validatePayment (orNum raw 0) = Some "Payment amount must be greater than zero.".
Proof.
  intros H. unfold validatePayment, orNum.
  destruct (truthy raw) eqn:T.
  - rewrite T. simpl.
    rewrite (leb_negb_ltb raw 0 (truthy_not_nan _ T) eq_refl), H. reflexivity.
  - reflexivity.
Qed.

Lemma too_large_rejected (raw : float) :
  (999999999 <? raw) = true ->
  validatePayment (orNum raw 0) = Some "Payment amount is too large.".
Proof.
  intros H.
  assert (Hn : is_nan raw = false).
  { apply is_nan_false. intros E. rewrite ltb_spec, E in H. discriminate. }
  assert (Hp : (0 <? raw) = true).
  { rewrite ltb_spec in H |- *. change (Prim2SF 0) with (S754_zero false).
    change (Prim2SF 999999999) with (S754_finite false 8388607991611392 (-23)) in H.
    unfold SFltb in *.
    destruct (Prim2SF raw) as [s|s| |s m e]; try destruct s; simpl in *;
      congruence. }
  rewrite (orNum_truthy _ (positive_truthy _ Hp)).
  unfold validatePayment.
  rewrite (positive_truthy _ Hp), (positive_not_leb_zero _ Hp), H. reflexivity.
Qed.

Lemma validatePayment_messages (amount : float) :
  validatePayment amount <> Some "Payment amount must be a valid number.".
Proof.
  unfold validatePayment. destruct (truthy amount) eqn:T; simpl; [|discriminate].
  destruct (amount <=? 0); [discriminate|].
  destruct (999999999 <? amount); [discriminate|].
  rewrite (truthy_not_nan _ T). discriminate.
Qed.

(** X9: of the three payment validation messages only two are ever
    sent. An amount that is not above zero (a negative number, 0 or a text
    that is not a number) is answered "Payment amount must be greater than
    zero.", an amount above 999999999 (the infinite one too) "Payment
    amount is too large.", and no PUT at all is answered "Payment amount
    must be a valid number.": the test behind it cannot succeed. *)
Theorem payment_rejection_messages :
  forall (Date : Type) (D : DateApi Date) (db : gmap string (Borrower Date))
         (now : Date) (id : option string) (body : PutBody Date),
    message (handlePut db now id body).1
    <> "Payment amount must be a valid number."
    /\ (forall (id' : string) (pay : PaymentBody Date) (b : Borrower Date),
           id = Some id' -> truthyStr id' = true -> db !! id' = Some b ->
           body_payment body = Some pay ->
           ((0 <? pb_amount pay) = false ->
            message (handlePut db now id body).1
            = "Payment amount must be greater than zero.")
           /\ ((999999999 <? pb_amount pay) = true ->
               message (handlePut db now id body).1
               = "Payment amount is too large.")).
Proof.
  intros Date D db now id body. split.
  - unfold handlePut. destruct id as [id'|]; [|discriminate].
    destruct (truthyStr id'); [|discriminate].
    destruct (body_payment body) as [pay|];
      [|destruct (body_penalty body) as [pen|];
        [|destruct (body_borrowerUpdate body) as [upd|]; [|discriminate]]];
      unfold paymentBranch, penaltyBranch, updateBranch;
      destruct (db !! id') as [b0|]; try discriminate.
    destruct (validatePayment _) as [msg|] eqn:V; [|discriminate].
    cbn [fst message reply]. intros ->.
    exact (validatePayment_messages _ V).
  - intros id' pay b -> Hid Hb Hpay. unfold handlePut. rewrite Hid, Hpay.
    unfold paymentBranch. rewrite Hb.
    change (pay_amount (paymentRecordOf now pay)) with (orNum (pb_amount pay) 0).
    split; intros H.
    + rewrite (not_positive_rejected _ H). reflexivity.
    + rewrite (too_large_rejected _ H). reflexivity.
Qed.

Lemma payment_rejection_messages_witness :
  message (handlePut Examples.db1000 Examples.today (Some "a1")
             (Examples.payment nan false)).1
  = "Payment amount must be greater than zero."
  /\ message (handlePut Examples.db1000 Examples.today (Some "a1")
                (Examples.payment infinity false)).1
     = "Payment amount is too large.".
Proof.
  split.
  - exact (proj1 (proj2 (payment_rejection_messages _ Calendar.api Examples.db1000
             Examples.today (Some "a1") (Examples.payment nan false))
             "a1" _ _ eq_refl eq_refl eq_refl eq_refl) eq_refl).
  - exact (proj2 (proj2 (payment_rejection_messages _ Calendar.api Examples.db1000
             Examples.today (Some "a1") (Examples.payment infinity false))
             "a1" _ _ eq_refl eq_refl eq_refl eq_refl) eq_refl).
Defined.

(** X10: payments and penalties never alter the contract. Under a PUT
    whose body has a payment or a penalty the name, contact, address,
    principal, term, rate, interest type, installment and creation date of
    every document stay as they were. A payment moves the due date only
    when it asks for it, and a penalty leaves the payment list, the due
    date and the advance record alone. *)
Theorem payments_and_penalties_keep_the_contract :
  forall (Date : Type) (D : DateApi Date) (db : gmap string (Borrower Date))
         (now : Date) (id : option string) (body : PutBody Date)
         (k : string) (b b' : Borrower Date),
    db !! k = Some b -> (handlePut db now id body).2 !! k = Some b' ->
    (defined (body_payment body) || defined (body_penalty body) = true ->
     contractOf b' = contractOf b)
    /\ (forall pay : PaymentBody Date,
           body_payment body = Some pay -> pb_updateDueDate pay = false ->
           nextDueDate b' = nextDueDate b
           /\ lastAdvancePayment b' = lastAdvancePayment b)
    /\ (body_payment body = None -> defined (body_penalty body) = true ->
        payments b' = payments b /\ nextDueDate b' = nextDueDate b
        /\ lastAdvancePayment b' = lastAdvancePayment b).
Proof.
  intros Date D db now id body k b b' Hb Hb'.
  destruct (handlePut_document db now id body k b b' Hb Hb')
    as [-> | [(pay & Hp & _ & ->) | [(pen & Hp & Hn & ->)
                                    | (upd & Hp & Hn & _ & ->)]]].
  - repeat split; reflexivity.
  - split; [|split].
    + intros _. unfold contractOf, applyPayment.
      destruct (advanceOf _ _ _); reflexivity.
    + intros pay' Hp' Hu. assert (pay' = pay) as -> by congruence.
      pose proof (applyPayment_dueDate b (pb_updateDueDate pay)
                    (paymentRecordOf now pay)) as [-> ->].
      unfold advanceOf. rewrite Hu.
      destruct (monthlyPayment b), (nextDueDate b); split; reflexivity.
    + rewrite Hp. discriminate.
  - split; [|split].
    + intros _. reflexivity.
    + intros pay' Hp'. congruence.
    + intros _ _. repeat split; reflexivity.
  - rewrite Hp, Hn. split; [discriminate|]. split; [discriminate|].
    intros _. discriminate.
Qed.

Lemma payments_and_penalties_keep_the_contract_witness :
  (b ← Examples.paid450 !! "a1"; Some (contractOf b))
  = (b ← Examples.db1000 !! "a1"; Some (contractOf b)).
Proof.
  destruct (Examples.db1000 !! "a1") as [b|] eqn:Hb;
    [|vm_compute in Hb; discriminate].
  destruct (Examples.paid450 !! "a1") as [b'|] eqn:Hb';
    [|vm_compute in Hb'; discriminate].
  simpl. f_equal.
  exact (proj1 (payments_and_penalties_keep_the_contract _ Calendar.api
                  Examples.db1000 Examples.today (Some "a1")
                  (Examples.payment 450 true) "a1" b b' Hb Hb') eq_refl).
Defined.

Section Schema.

Context {Date : Type} {D : DateApi Date}.

Lemma newBorrower_wellFormed (now : Date) (body : CreateBody Date) :
  truthyStrOpt (cb_name body) = true -> truthyStrOpt (cb_contact body) = true ->
  truthyStrOpt (cb_address body) = true ->
  wellFormed (newBorrower now body) = true.
Proof.
  unfold wellFormed, newBorrower. simpl.
  destruct (cb_name body) as [n|]; [|discriminate].
  destruct (cb_contact body) as [c|]; [|discriminate].
  destruct (cb_address body) as [a|]; [|discriminate].
  simpl. intros -> -> ->. simpl.
  unfold orStr. destruct (cb_interestType body) as [s|]; [|reflexivity].
  destruct (truthyStr s) eqn:T; [rewrite T|]; reflexivity.
Qed.

Lemma advanceOf_wellFormed (b : Borrower Date) (u : bool)
    (r : PaymentRecord Date) (a : AdvancePayment Date) :
  advanceOf b u r = Some a ->
  (1 <=? adv_monthsCovered a) = true /\ adv_amount a = pay_amount r.
Proof.
  unfold advanceOf.
  destruct (monthlyPayment b) as [mp|]; [|discriminate].
  destruct (nextDueDate b) as [due|]; [|discriminate].
  destruct (u && truthy mp && (0 <? pay_amount r)); [|discriminate].
  destruct (1 <=? Math_floor (pay_amount r / mp)) eqn:E; [|discriminate].
  intros [= <-]. simpl. auto.
Qed.

Lemma applyPayment_wellFormed (b : Borrower Date) (now : Date)
    (pay : PaymentBody Date) :
  validatePayment (pay_amount (paymentRecordOf now pay)) = None ->
  wellFormed b = true ->
  wellFormed (applyPayment b (pb_updateDueDate pay) (paymentRecordOf now pay)) = true.
Proof.
  intros V. cbn [pay_amount paymentRecordOf] in V.
  apply validatePayment_accepts in V.
  assert (Hr : Spec.validAmount (pay_amount (paymentRecordOf now pay)) = true).
  { cbn [pay_amount paymentRecordOf]. rewrite (validAmount_orNum _ V). exact V. }
  clear V. generalize dependent (paymentRecordOf now pay). intros r Hr.
  generalize (pb_updateDueDate pay). intros u.
  unfold wellFormed. rewrite !andb_true_iff.
  intros ((((((((((((Hn & Hc) & Ha) & Hl) & Ht) & Hi) & Hy) & Hm) & Hp) & Hrb)
             & Hps) & Hqs) & Hadv).
  destruct (applyPayment_terms b u r) as (-> & -> & -> & ->).
  destruct (applyPayment_penalties b u r) as (-> & ->).
  destruct (applyPayment_dueDate b u r) as (_ & ->).
  rewrite applyPayment_payments, applyPayment_balance.
  assert (Hnames :
    name (applyPayment b u r) = name b
    /\ contact (applyPayment b u r) = contact b
    /\ address (applyPayment b u r) = address b
    /\ monthlyPayment (applyPayment b u r) = monthlyPayment b).
  { unfold applyPayment. destruct (advanceOf _ _ _); repeat split. }
  destruct Hnames as (-> & -> & -> & ->).
  repeat split; auto.
  - destruct (payments b) as [l|]; [|discriminate]. simpl.
    rewrite forallb_app, Hps. simpl. rewrite Hr. reflexivity.
  - destruct (advanceOf b u r) as [a|] eqn:E; [|exact Hadv].
    destruct (advanceOf_wellFormed _ _ _ _ E) as [-> ->]. exact Hr.
Qed.

Lemma applyPenalty_wellFormed (b : Borrower Date) (now : Date) (pen : PenaltyBody) :
  wellFormed b = true -> wellFormed (applyPenalty b (penaltyRecordOf now pen)) = true.
Proof.
  unfold wellFormed. rewrite !andb_true_iff.
  intros ((((((((((((Hn & Hc) & Ha) & Hl) & Ht) & Hi) & Hy) & Hm) & Hp) & Hrb)
             & Hps) & Hqs) & Hadv).
  simpl. repeat split; auto.
  destruct (penalties b) as [l|]; [|discriminate]. simpl.
  rewrite forallb_app, Hqs. reflexivity.
Qed.

Lemma ifTruthyStr_truthy (o : option string) (old : string) :
  truthyStr old = true -> truthyStr (nullish (ifTruthyStr o) old) = true.
Proof.
  unfold ifTruthyStr. destruct o as [s|]; simpl; auto.
  destruct (truthyStr s) eqn:T; simpl; auto.
Qed.

Lemma overwrite_defined {A : Type} (new old : option A) :
  defined old = true -> defined (overwrite new old) = true.
Proof. destruct new; auto. Qed.

Lemma applyUpdate_wellFormed (b : Borrower Date) (upd : UpdateBody Date) :
  wellFormed b = true -> wellFormed (applyUpdate b upd) = true.
Proof.
  unfold wellFormed. rewrite !andb_true_iff.
  intros ((((((((((((Hn & Hc) & Ha) & Hl) & Ht) & Hi) & Hy) & Hm) & Hp) & Hrb)
             & Hps) & Hqs) & Hadv).
  simpl. repeat split; auto using ifTruthyStr_truthy, overwrite_defined.
  unfold ifTruthyStr. destruct (ub_interestType upd) as [s|]; simpl; auto.
  destruct (truthyStr s) eqn:T; simpl; auto.
Qed.

(** Induction over the reachable collections, with what the handlers know
    about each step: the required strings of a creation are non-empty and
    a recorded payment passed the validation. *)
Lemma reachable_checked (P : Borrower Date -> Prop) :
  (forall now body,
      truthyStrOpt (cb_name body) = true -> truthyStrOpt (cb_contact body) = true ->
      truthyStrOpt (cb_address body) = true -> P (newBorrower now body)) ->
  (forall b now pay,
      validatePayment (pay_amount (paymentRecordOf now pay)) = None -> P b ->
      P (applyPayment b (pb_updateDueDate pay) (paymentRecordOf now pay))) ->
  (forall b now pen, P b -> P (applyPenalty b (penaltyRecordOf now pen))) ->
  (forall b upd, P b -> P (applyUpdate b upd)) ->
  forall db, reachable db -> forall id b, db !! id = Some b -> P b.
Proof.
  intros Hnew Hpay Hpen Hupd db R. induction R as [|db req R IH].
  - intros id b H. rewrite lookup_empty in H. discriminate.
  - destruct req as [now newId body | now id body | id]; cbn [handle].
    + unfold handlePost.
      destruct (truthyStrOpt (cb_name body)) eqn:Tn; [|exact IH].
      destruct (truthyStrOpt (cb_contact body)) eqn:Tc; [|exact IH].
      destruct (truthyStrOpt (cb_address body)) eqn:Ta; [|exact IH].
      cbn [negb orb snd]. intros id b. rewrite lookup_insert. case_decide.
      * intros [= <-]. apply Hnew; assumption.
      * apply IH.
    + intros k b' Hb'.
      destruct (db !! k) as [b|] eqn:Hb.
      * destruct (handlePut_document db now id body k b b' Hb Hb')
          as [-> | [(pay & _ & V & ->) | [(pen & _ & _ & ->)
                                         | (upd & _ & _ & _ & ->)]]];
          eauto.
      * destruct (put_frame_dom db now id body) as [_ Hdom].
        assert (H : k ∈ dom (handlePut db now id body).2)
          by (apply elem_of_dom; eauto).
        rewrite Hdom in H. apply elem_of_dom in H. rewrite Hb in H.
        destruct H; discriminate.
    + unfold handleDelete. destruct id as [id|]; [|exact IH].
      destruct (truthyStr id); [|exact IH].
      destruct (db !! id) as [b0|] eqn:E; [|exact IH]. cbn [snd].
      intros id' b. rewrite lookup_delete. case_decide; [discriminate|apply IH].
Qed.

End Schema.

(** X11: every document of every collection the server can reach is well
    formed: name, contact and address are non-empty, all fields of the
    creation literal are present, every recorded payment has an amount that
    passes the validation (finite, above 0, at most 999999999), every
    penalty record is typed "penalty", and a recorded advance covers at
    least one month. *)
Theorem stored_documents_are_well_formed :
  forall (Date : Type) (D : DateApi Date) (db : gmap string (Borrower Date))
         (id : string) (b : Borrower Date),
    reachable db -> db !! id = Some b -> wellFormed b = true.
Proof.
  intros Date D db id b R. revert id b.
  apply (reachable_checked (fun b => wellFormed b = true));
    auto using newBorrower_wellFormed, applyPayment_wellFormed,
               applyPenalty_wellFormed, applyUpdate_wellFormed.
Qed.

Lemma stored_documents_are_well_formed_witness :
  (b ← Examples.paid450 !! "a1"; Some (wellFormed b)) = Some true.
Proof.
  destruct (Examples.paid450 !! "a1") as [b|] eqn:Hb;
    [|vm_compute in Hb; discriminate].
  simpl. f_equal.
  apply (stored_documents_are_well_formed _ Calendar.api Examples.paid450 "a1" b);
    [|exact Hb].
  unfold Examples.paid450, Examples.db1000. repeat apply run_reachable.
  apply reach_empty.
Defined.

Lemma nan_add_l (x y : float) : is_nan x = true -> is_nan (x + y) = true.
Proof.
  rewrite !is_nan_spec, add_spec. intros ->. reflexivity.
Qed.

Lemma nan_sub_l (x y : float) : is_nan x = true -> is_nan (x - y) = true.
Proof.
  rewrite !is_nan_spec, sub_spec. intros ->. reflexivity.
Qed.

Lemma nan_falsy (x : float) : is_nan x = true -> truthy x = false.
Proof.
  intros H. destruct (truthy x) eqn:T; [|reflexivity].
  rewrite (truthy_not_nan _ T) in H. discriminate.
Qed.

(** X12: an edit whose [loanAmount] is not a number is accepted. It is
    answered 200, stores NaN as the principal and NaN as the balance; the
    payment handler then reads the principal as 0 ([loanAmount || 0]), so
    the next payment computes the balance of a loan without principal. *)
Theorem edit_with_invalid_principal :
  forall (Date : Type) (D : DateApi Date) (db : gmap string (Borrower Date))
         (now : Date) (id : string) (upd : UpdateBody Date) (b : Borrower Date)
         (x : float),
    truthyStr id = true -> db !! id = Some b ->
    ub_loanAmount upd = Some x -> is_nan x = true ->
    let result := handlePut db now (Some id) (mkPutBody None None (Some upd)) in
    status result.1 = 200%Z
    /\ exists (b' : Borrower Date) (y : float),
         result.2 !! id = Some b'
         /\ loanAmount b' = Some x
         /\ remainingBalance b' = Some y /\ is_nan y = true
         /\ forall amount : float,
              paymentBalance b' amount
              = Math_max (0 + accruedInterest 0 (interestRate b') (term b')
                                (interestType b')
                          + orOpt (totalPenalties b') 0
                          - (sumPayments (default [] (payments b')) + amount)) 0.
Proof.
  intros Date D db now id upd b x Hid Hb Hx Hnan result. subst result.
  rewrite (handlePut_update db now id upd b Hid Hb). split; [reflexivity|].
  exists (applyUpdate b upd), (updateBalance b upd).
  cbn [snd]. rewrite lookup_insert_eq. split; [reflexivity|].
  assert (HL : loanAmount (applyUpdate b upd) = Some x)
    by (cbn; rewrite Hx; reflexivity).
  split; [exact HL|]. split; [|split].
  - unfold applyUpdate, applySet, updateFieldsOf, termsSupplied. simpl.
    rewrite Hx. reflexivity.
  - unfold updateBalance. rewrite Math_max_zero_nan, Hx. simpl.
    apply nan_sub_l, nan_add_l, nan_add_l, Hnan.
  - intros amount. unfold paymentBalance. rewrite HL.
    cbn [orOpt]. unfold orNum. rewrite (nan_falsy _ Hnan). reflexivity.
Qed.

Lemma edit_with_invalid_principal_witness :
  exists y : float,
    (b ← (handlePut Examples.db1000 Examples.today (Some "a1")
            (Examples.update
               (mkUpdateBody None None None (Some nan) None None None None None))).2
           !! "a1"; remainingBalance b) = Some y
    /\ is_nan y = true.
Proof.
  destruct (proj2 (edit_with_invalid_principal _ Calendar.api Examples.db1000
              Examples.today "a1"
              (mkUpdateBody None None None (Some nan) None None None None None)
              _ nan eq_refl eq_refl eq_refl eq_refl))
    as (b' & y & Hl & _ & Hr & Hy & _).
  exists y. split; [|exact Hy].
  change (handlePut Examples.db1000 Examples.today (Some "a1")
            (Examples.update
               (mkUpdateBody None None None (Some nan) None None None None None)))
    with (handlePut Examples.db1000 Examples.today (Some "a1")
            (mkPutBody None None
               (Some (mkUpdateBody None None None (Some nan) None None None None None)))).
  rewrite Hl. exact Hr.
Defined.

(** * The serverless handler against the server *)

Lemma serverless_accepts (raw : float) :
  Serverless.validatePayment (orNum raw 0) = None <-> (0 <? raw) = true.
Proof.
  unfold Serverless.validatePayment, orNum. split.
  - destruct (truthy raw) eqn:T; [|discriminate].
    rewrite T. simpl.
    rewrite (leb_negb_ltb raw 0 (truthy_not_nan _ T) eq_refl).
    destruct (0 <? raw); [reflexivity | discriminate].
  - intros H. rewrite (positive_truthy _ H), (positive_truthy _ H). simpl.
    rewrite (positive_not_leb_zero _ H). reflexivity.
Qed.

Lemma applyPayment_not_advancing {Date : Type} {D : DateApi Date}
    (b : Borrower Date) (r : PaymentRecord Date) :
  applyPayment b false r = Serverless.applyPayment b r.
Proof.
  unfold applyPayment, advanceOf.
  destruct (monthlyPayment b), (nextDueDate b); reflexivity.
Qed.

(** X13: the serverless handler ([api/index.js]) validates payments less
    strictly than the server. It accepts a payment exactly when the amount
    is above zero, so an amount above 999999999 (the infinite one too),
    which the server rejects, is recorded. On every payment that the
    server accepts the two agree, except that the serverless handler never
    moves the due date: it answers and stores what the server does for the
    same payment without [updateDueDate]. *)
Theorem serverless_payment_against_server :
  forall (Date : Type) (D : DateApi Date) (db : gmap string (Borrower Date))
         (now : Date) (id : option string) (pay : PaymentBody Date)
         (pen : option PenaltyBody) (upd : option (UpdateBody Date)),
    let body := mkPutBody (Some pay) pen upd in
    (forall (id' : string) (b : Borrower Date),
        id = Some id' -> truthyStr id' = true -> db !! id' = Some b ->
        (status (Serverless.handlePut db now id body).1 = 200%Z
         <-> (0 <? pb_amount pay) = true)
        /\ ((999999999 <? pb_amount pay) = true ->
            status (Serverless.handlePut db now id body).1 = 200%Z
            /\ status (handlePut db now id body).1 = 400%Z))
    /\ (Spec.validAmount (pb_amount pay) = true ->
        Serverless.handlePut db now id body
        = handlePut db now id
            (mkPutBody (Some (mkPaymentBody (pb_amount pay) (pb_date pay)
                                (pb_note pay) false)) pen upd)).
Proof.
  intros Date D db now id pay pen upd body. subst body. split.
  - intros id' b -> Hid Hb.
    assert (Hiff : status (Serverless.handlePut db now (Some id')
                             (mkPutBody (Some pay) pen upd)).1 = 200%Z
                   <-> (0 <? pb_amount pay) = true).
    { unfold Serverless.handlePut. rewrite Hid. cbn [body_payment]. rewrite Hb.
      cbn [pay_amount paymentRecordOf].
      pose proof (serverless_accepts (pb_amount pay)) as A.
      destruct (Serverless.validatePayment (orNum (pb_amount pay) 0)) eqn:V.
      - split; [discriminate|]. intros H. apply A in H. discriminate.
      - split; [|reflexivity]. intros _. apply A. reflexivity. }
    split; [exact Hiff|]. intros Hbig.
    assert (Hpos : (0 <? pb_amount pay) = true).
    { pose proof (too_large_rejected _ Hbig) as R.
      destruct (0 <? pb_amount pay) eqn:E; [reflexivity|].
      rewrite (not_positive_rejected _ E) in R. discriminate. }
    split; [apply Hiff, Hpos|].
    rewrite (handlePut_payment db now id' pay pen upd b Hid Hb).
    rewrite (too_large_rejected _ Hbig). reflexivity.
  - intros Hv. unfold Serverless.handlePut, handlePut.
    destruct id as [id'|]; [|reflexivity].
    destruct (truthyStr id'); [|reflexivity].
    cbn [body_payment]. unfold paymentBranch.
    destruct (db !! id') as [b|]; [|reflexivity].
    cbn [pay_amount paymentRecordOf pb_amount pb_updateDueDate].
    rewrite (proj2 (validatePayment_accepts _) Hv).
    rewrite (proj2 (serverless_accepts _) (validAmount_positive _ Hv)).
    rewrite applyPayment_not_advancing. reflexivity.
Qed.

Lemma serverless_payment_against_server_witness :
  Serverless.handlePut Examples.db1000 Examples.today (Some "a1")
    (Examples.payment 450 true)
  = handlePut Examples.db1000 Examples.today (Some "a1")
      (Examples.payment 450 false).
Proof.
  exact (proj2 (serverless_payment_against_server _ Calendar.api Examples.db1000
                  Examples.today (Some "a1") (mkPaymentBody 450 None None true)
                  None None) eq_refl).
Defined.

(** X14: in the serverless handler a PUT can only record a payment. A
    body with a penalty and no payment is answered 200 although nothing is
    stored, even for an id that no document has; a body with only a
    borrower update is answered 400. Whatever the body, no document's
    contract, penalty list, penalty total, due date or advance record
    changes, and no document is created or removed. *)
Theorem serverless_put_only_records_payments :
  forall (Date : Type) (db : gmap string (Borrower Date))
         (now : Date) (id : option string) (body : PutBody Date),
    let result := Serverless.handlePut db now id body in
    (body_payment body = None ->
     result.2 = db
     /\ (status result.1 = 200%Z
         <-> (exists id', id = Some id' /\ truthyStr id' = true)
             /\ defined (body_penalty body) = true)
     /\ (status result.1 = 200%Z \/ status result.1 = 400%Z))
    /\ dom result.2 = dom db
    /\ (forall (k : string) (b b' : Borrower Date),
           db !! k = Some b -> result.2 !! k = Some b' ->
           contractOf b' = contractOf b
           /\ penalties b' = penalties b /\ totalPenalties b' = totalPenalties b
           /\ nextDueDate b' = nextDueDate b
           /\ lastAdvancePayment b' = lastAdvancePayment b).
Proof.
  intros Date db now id body result. subst result.
  assert (Hshape :
    (Serverless.handlePut db now id body).2 = db
    \/ exists id' b r, db !! id' = Some b /\ body_payment body <> None
         /\ (Serverless.handlePut db now id body).2
            = <[id' := Serverless.applyPayment b r]> db).
  { unfold Serverless.handlePut. destruct id as [id'|]; [|auto].
    destruct (truthyStr id'); [|auto].
    destruct (body_payment body) as [pay|];
      [|destruct (body_penalty body); auto].
    destruct (db !! id') as [b|] eqn:Hb; [|auto].
    destruct (Serverless.validatePayment _); [auto|].
    right. exists id', b, (paymentRecordOf now pay). split; [exact Hb|].
    split; [discriminate | reflexivity]. }
  split; [|split].
  - intros Hp. split; [|split].
    + destruct Hshape as [H | (id' & b & r & _ & H & _)]; [exact H | congruence].
    + unfold Serverless.handlePut. rewrite Hp.
      destruct id as [id'|].
      * destruct (truthyStr id') eqn:T.
        -- destruct (body_penalty body); simpl; split; try discriminate; eauto.
           intros [_ H]. discriminate.
        -- simpl. split; [discriminate|].
           intros [(k & [= <-] & Hk) _]. congruence.
      * simpl. split; [discriminate|]. intros [(k & Hk & _) _]. discriminate.
    + unfold Serverless.handlePut. rewrite Hp.
      destruct id as [id'|]; [|auto].
      destruct (truthyStr id'); [|auto].
      destruct (body_penalty body); auto.
  - destruct Hshape as [-> | (id' & b & r & Hb & _ & ->)]; [reflexivity|].
    apply dom_insert_lookup_L. rewrite Hb. eauto.
  - intros k b b' Hb.
    destruct Hshape as [-> | (id' & b0 & r & Hb0 & _ & ->)].
    + rewrite Hb. intros [= <-]. repeat split; reflexivity.
    + rewrite lookup_insert. case_decide as Hk.
      * subst id'. assert (b0 = b) as -> by congruence. intros [= <-].
        repeat split; reflexivity.
      * rewrite Hb. intros [= <-]. repeat split; reflexivity.
Qed.

Lemma serverless_put_only_records_payments_witness :
  (Serverless.handlePut Examples.db1000 Examples.today (Some "zz")
     (Examples.penalty 100)).2 = Examples.db1000
  /\ status (Serverless.handlePut Examples.db1000 Examples.today (Some "zz")
               (Examples.penalty 100)).1 = 200%Z.
Proof.
  destruct (proj1 (serverless_put_only_records_payments _ Examples.db1000
                     Examples.today (Some "zz") (Examples.penalty 100)) eq_refl)
    as (H1 & H2 & _).
  split; [exact H1|]. apply H2. split; [|reflexivity].
  exists "zz". split; reflexivity.
Defined.

(** * The memory store of the serverless handler *)

Section MemoryStore.

Context {Date : Type}.







End MemoryStore.



(** * The first handler *)

Lemma zero_sub (a : float) :
  Prim2SF (0 - a)
  = match Prim2SF a with
    | S754_zero _ => S754_zero false
    | S754_infinity s => S754_infinity (negb s)
    | S754_nan => S754_nan
    | S754_finite s m e => S754_finite (negb s) m e
    end.
Proof.
  rewrite sub_spec. change (Prim2SF 0) with (S754_zero false).
  destruct (Prim2SF a) as [s|s| |s m e]; try destruct s; reflexivity.
Qed.

Lemma Math_max_zero_negative (x : float) :
  match Prim2SF x with
  | S754_zero false | S754_infinity true | S754_finite true _ _ => True
  | _ => False
  end -> Math_max x 0 = 0.
Proof.
  unfold Math_max. destruct (Prim2SF x) as [s|s| |s m e] eqn:E; try tauto.
  - destruct s; [tauto|]. intros _. apply zero_cases in E. subst x. reflexivity.
  - destruct s; [|tauto]. intros _.
    assert (Hn : is_nan x = false) by (apply is_nan_false; congruence).
    rewrite Hn, !ltb_spec, E. reflexivity.
  - destruct s; [|tauto]. intros _.
    assert (Hn : is_nan x = false) by (apply is_nan_false; congruence).
    rewrite Hn, !ltb_spec, E. reflexivity.
Qed.

Lemma Math_max_zero_positive (x : float) :
  match Prim2SF x with
  | S754_infinity false | S754_finite false _ _ => True
  | _ => False
  end -> Math_max x 0 = x.
Proof.
  unfold Math_max. destruct (Prim2SF x) as [s|s| |s m e] eqn:E; try tauto.
  - destruct s; [tauto|]. intros _.
    assert (Hn : is_nan x = false) by (apply is_nan_false; congruence).
    rewrite Hn, !ltb_spec, E. reflexivity.
  - destruct s; [tauto|]. intros _.
    assert (Hn : is_nan x = false) by (apply is_nan_false; congruence).
    rewrite Hn, !ltb_spec, E. reflexivity.
Qed.

(** X16: the first handler ([api/loans.js]) never rejects a payment for
    its amount. A PUT is answered 200 exactly when the id is given, a
    document has it and the body has a payment; then one record with the
    amount [Number(amount) || 0] is appended and the stored balance, which
    is also the balance answered, becomes
    [max((remainingBalance ?? loanAmount) - amount, 0)]. A PUT without a
    payment is answered 405, and nothing changes unless the answer is
    200. *)
Theorem legacy_put_effect :
  forall (Date : Type) (db : gmap string (Borrower Date)) (now : Date)
         (id : option string) (body : PutBody Date),
    let result := Legacy.handlePut db now id body in
    (status result.1 = 200%Z
     <-> exists id' b pay, id = Some id' /\ truthyStr id' = true
                           /\ db !! id' = Some b /\ body_payment body = Some pay)
    /\ (status result.1 = 405%Z
        <-> (exists id', id = Some id' /\ truthyStr id' = true)
            /\ body_payment body = None)
    /\ (status result.1 <> 200%Z -> result.2 = db)
    /\ (forall (id' : string) (b : Borrower Date) (pay : PaymentBody Date),
           id = Some id' -> truthyStr id' = true -> db !! id' = Some b ->
           body_payment body = Some pay ->
           let newBalance :=
             Math_max (nullish (remainingBalance b) (nullish (loanAmount b) nan)
                       - orNum (pb_amount pay) 0) 0 in
           res_remainingBalance result.1 = Some newBalance
           /\ exists b' : Borrower Date,
                result.2 !! id' = Some b'
                /\ payments b'
                   = Some (default [] (payments b) ++ [paymentRecordOf now pay])%list
                /\ remainingBalance b' = Some newBalance
                /\ contractOf b' = contractOf b
                /\ nextDueDate b' = nextDueDate b).
Proof.
  intros Date db now id body result. subst result. unfold Legacy.handlePut.
  destruct id as [id'|].
  - destruct (truthyStr id') eqn:T.
    + destruct (body_payment body) as [pay|] eqn:P.
      * destruct (db !! id') as [b|] eqn:Hb; cbn [fst snd status reply].
        -- split; [split; [eauto 8 | reflexivity]|].
           split; [split; [discriminate | intros [_ H]; discriminate]|].
           split; [congruence|].
           intros k b0 pay0 [= <-] _ Hb0 [= <-].
           assert (b0 = b) as -> by congruence.
           split; [reflexivity|].
           eexists. rewrite lookup_insert_eq. split; [reflexivity|].
           repeat split; reflexivity.
        -- split; [split; [discriminate|]|].
           { intros (k & b & pay0 & [= <-] & _ & Hk & _). congruence. }
           split; [split; [discriminate | intros [_ H]; discriminate]|].
           split; [reflexivity|].
           intros k b0 pay0 [= <-] _ Hb0. congruence.
      * cbn [fst snd status reply].
        split; [split; [discriminate|]|].
        { intros (k & b & pay0 & _ & _ & _ & H). discriminate. }
        split; [split; eauto|].
        split; [reflexivity|].
        intros k b0 pay0 _ _ _ H. discriminate.
    + cbn [fst snd status reply].
      split; [split; [discriminate|]|].
      { intros (k & b & pay0 & [= <-] & Hk & _). congruence. }
      split; [split; [discriminate|]|].
      { intros [(k & [= <-] & Hk) _]. congruence. }
      split; [reflexivity|].
      intros k b0 pay0 [= <-] Hk. congruence.
  - cbn [fst snd status reply].
    split; [split; [discriminate|]|].
    { intros (k & b & pay0 & H & _). discriminate. }
    split; [split; [discriminate|]|].
    { intros [(k & H & _) _]. discriminate. }
    split; [reflexivity|].
    intros k b0 pay0 H. discriminate.
Qed.

Lemma legacy_put_effect_witness :
  res_remainingBalance
    (Legacy.handlePut Examples.db1000 Examples.today (Some "a1")
       (Examples.payment (-5) false)).1
  = Some 1005.
Proof.
  destruct (proj2 (proj2 (proj2 (legacy_put_effect _ Examples.db1000 Examples.today
              (Some "a1") (Examples.payment (-5) false)))) "a1" _
              (mkPaymentBody (-5) None None false) eq_refl eq_refl eq_refl eq_refl)
    as [H _].
  exact H.
Defined.

(** X17: in the first handler a settled loan stays settled under any
    payment of a non-negative amount, but a negative amount, which is not
    rejected, reopens it: the balance becomes the amount without its
    sign. *)
Theorem legacy_settled_loan :
  forall (Date : Type) (b : Borrower Date) (amount : float),
    remainingBalance b = Some 0 ->
    ((0 <=? amount) = true -> Legacy.paymentBalance b amount = 0)
    /\ ((amount <? 0) = true -> Legacy.paymentBalance b amount = - amount).
Proof.
  intros Date b amount Hrb. unfold Legacy.paymentBalance. rewrite Hrb.
  cbn [nullish]. pose proof (zero_sub amount) as Z. split; intros H.
  - apply Math_max_zero_negative. rewrite Z.
    apply leb_zero_shape in H as [H Hn]. apply is_nan_false in Hn.
    destruct (Prim2SF amount) as [s|s| |s m e]; try destruct s; simpl in *;
      tauto || congruence.
  - assert (S : match Prim2SF amount with
                | S754_infinity true | S754_finite true _ _ => True
                | _ => False
                end).
    { rewrite ltb_spec in H. change (Prim2SF 0) with (S754_zero false) in H.
      unfold SFltb in H.
      destruct (Prim2SF amount) as [s|s| |s m e]; try destruct s; simpl in *;
        congruence || exact I. }
    assert (E : 0 - amount = - amount).
    { apply Prim2SF_inj. rewrite Z, opp_spec.
      destruct (Prim2SF amount) as [s|s| |s m e]; try destruct s; simpl in *;
        tauto || reflexivity. }
    rewrite E. apply Math_max_zero_positive. rewrite opp_spec.
    destruct (Prim2SF amount) as [s|s| |s m e]; try destruct s; simpl in *; tauto.
Qed.

Lemma legacy_settled_loan_witness :
  Legacy.paymentBalance
    (withBalance (Some 0)
       (newBorrower Examples.today (Examples.createBody 1000 0 0 "monthly" 200)))
    (-250)
  = 250.
Proof.
  exact (proj2 (legacy_settled_loan Calendar.date
                  (withBalance (Some 0)
                     (newBorrower Examples.today
                        (Examples.createBody 1000 0 0 "monthly" 200)))
                  (-250) eq_refl) eq_refl).
Defined.

Section PaymentTotals.

Context {Date : Type}.

Lemma add_valid_nonneg (acc a : float) :
  (0 <=? acc) = true -> Spec.validAmount a = true -> (0 <=? acc + a) = true.
Proof.
  intros Hacc Hv. apply leb_zero_shape in Hacc as [Hs Hn].
  unfold Spec.validAmount in Hv. rewrite !andb_true_iff in Hv.
  destruct Hv as [[Hf Hp] _].
  apply is_finite_spec in Hf. apply ltb_zero_shape in Hp.
  apply is_nan_false in Hn.
  assert (Ha : notBelowZero (Prim2SF a) /\ finiteSF (Prim2SF a)).
  { destruct (Prim2SF a) as [s|s| |s m e]; try destruct s; simpl in *; tauto. }
  destruct Ha as [Ha1 Ha2].
  apply notBelowZero_leb.
  - rewrite add_spec. apply SFadd_notBelowZero; assumption.
  - apply is_nan_false. rewrite add_spec. apply SFadd_not_nan_r; assumption.
Qed.

Lemma sumPayments_nonneg (l : list (PaymentRecord Date)) :
  forallb (fun r => Spec.validAmount (pay_amount r)) l = true ->
  (0 <=? sumPayments l) = true.
Proof.
  unfold sumPayments.
  assert (H : forall acc, (0 <=? acc) = true ->
            forallb (fun r => Spec.validAmount (pay_amount r)) l = true ->
            (0 <=? fold_left (fun sum p => sum + orNum (pay_amount p) 0) l acc) = true).
  { induction l as [|r l IH]; intros acc Hacc Hl; [exact Hacc|].
    simpl in Hl. apply andb_true_iff in Hl as [Hr Hl]. simpl.
    apply IH; [|exact Hl].
    rewrite (validAmount_orNum _ Hr). apply add_valid_nonneg; assumption. }
  apply H. reflexivity.
Qed.

End PaymentTotals.

(** X18: in every collection the server can reach, the total of a loan's
    recorded payments, as the handlers sum it, is a number and is not
    negative (it is never NaN): every recorded amount is finite and above
    zero. *)
Theorem total_payments_is_not_negative :
  forall (Date : Type) (D : DateApi Date) (db : gmap string (Borrower Date))
         (id : string) (b : Borrower Date),
    reachable db -> db !! id = Some b ->
    exists l : list (PaymentRecord Date),
      payments b = Some l
      /\ Forall (fun r => Spec.validAmount (pay_amount r) = true) l
      /\ (0 <=? sumPayments l) = true.
Proof.
  intros Date D db id b R Hb.
  pose proof (reachable_checked (fun b => wellFormed b = true)
                newBorrower_wellFormed applyPayment_wellFormed
                applyPenalty_wellFormed applyUpdate_wellFormed db R id b Hb) as W.
  unfold wellFormed in W. rewrite !andb_true_iff in W.
  destruct W as [[[_ Hp] _] _].
  destruct (payments b) as [l|]; [|discriminate].
  exists l. split; [reflexivity|]. split.
  - apply Forall_forall. intros r Hr.
    rewrite forallb_forall in Hp. apply Hp. apply list_elem_of_In, Hr.
  - apply sumPayments_nonneg, Hp.
Qed.

Lemma total_payments_is_not_negative_witness :
  exists l : list (PaymentRecord Calendar.date),
    (b ← Examples.paid1050 !! "a1"; payments b) = Some l
    /\ (0 <=? sumPayments l) = true.
Proof.
  destruct (Examples.paid1050 !! "a1") as [b|] eqn:Hb;
    [|vm_compute in Hb; discriminate].
  assert (R : reachable Examples.paid1050).
  { unfold Examples.paid1050, Examples.paid1000, Examples.db1000.
    repeat apply run_reachable. apply reach_empty. }
  destruct (total_payments_is_not_negative _ Calendar.api Examples.paid1050 "a1" b
              R Hb) as (l & Hl & _ & Hs).
  exists l. split; [exact Hl | exact Hs].
Defined.

Lemma legacy_paymentBalance {Date : Type} (now : Date) (body : CreateBody Date)
    (amount : float) :
  paymentBalance (Legacy.newBorrower now body) amount
  = paymentBalance (newBorrower now body) amount.
Proof. reflexivity. Qed.

Lemma legacy_applyPenalty {Date : Type} (now : Date) (body : CreateBody Date)
    (r : PenaltyRecord Date) :
  applyPenalty (Legacy.newBorrower now body) r = applyPenalty (newBorrower now body) r.
Proof. reflexivity. Qed.

(** X19: the server reads a loan created by the first handler as the loan
    it would have created itself. Such a loan has no penalty list, no
    penalty total and the principal as its balance; still every PUT of the
    server gives the same answer on it as on the server's own new loan,
    and after a penalty the two collections are equal. *)
Theorem server_reads_legacy_loans :
  forall (Date : Type) (D : DateApi Date) (db : gmap string (Borrower Date))
         (now now' : Date) (id : string) (created : CreateBody Date)
         (body : PutBody Date),
    truthyStr id = true ->
    let legacy := (Legacy.handlePost db now id created).2 in
    let current := (handlePost db now id created).2 in
    (handlePut legacy now' (Some id) body).1
    = (handlePut current now' (Some id) body).1
    /\ (body_payment body = None -> defined (body_penalty body) = true ->
        (handlePut legacy now' (Some id) body).2
        = (handlePut current now' (Some id) body).2).
Proof.
  intros Date D db now now' id created body Hid legacy current.
  subst legacy current. unfold Legacy.handlePost, handlePost.
  destruct (negb _ || negb _ || negb _); [split; reflexivity|].
  cbn [snd]. unfold handlePut. rewrite Hid.
  destruct (body_payment body) as [pay|];
    [|destruct (body_penalty body) as [pen|];
      [|destruct (body_borrowerUpdate body) as [upd|]]];
    unfold paymentBranch, penaltyBranch, updateBranch;
    rewrite ?lookup_insert_eq.
  - split; [|discriminate].
    destruct (validatePayment _); [reflexivity|].
    cbn [fst]. rewrite legacy_paymentBalance. reflexivity.
  - split; [reflexivity|]. intros _ _. cbn [snd].
    rewrite !insert_insert_eq, legacy_applyPenalty. reflexivity.
  - split; [reflexivity | discriminate].
  - split; [reflexivity | discriminate].
Qed.

Lemma server_reads_legacy_loans_witness :
  (handlePut (Legacy.handlePost ∅ Examples.today "a1"
                (Examples.createBody 1000 5 12 "monthly" 200)).2
     Examples.today (Some "a1") (Examples.payment 300 false)).1
  = (handlePut (handlePost ∅ Examples.today "a1"
                  (Examples.createBody 1000 5 12 "monthly" 200)).2
       Examples.today (Some "a1") (Examples.payment 300 false)).1.
Proof.
  exact (proj1 (server_reads_legacy_loans _ Calendar.api ∅ Examples.today
                  Examples.today "a1" (Examples.createBody 1000 5 12 "monthly" 200)
                  (Examples.payment 300 false) eq_refl)).
Defined.
